(** * RTSP_To_VirtualCam: a shallow embedding of the relay and reconnection engine

    The development follows src/RTSP_To_VirtualCam.py.  Its two worker threads
    are embedded as state-passing functions over records that carry the
    attributes of the Python objects:

    - [VirtualCamSendThread] (lines 32-197): the single-slot queue, the
      test-pattern flag, the virtual camera handle and the test pattern
      generator;
    - [VideoThread] (lines 200-377): connection, read loop, reconnection with
      exponential backoff and stop.

    Logging calls have no effect on the state and are left out.  Everything
    the threads exchange with the outside (Qt signals, calls on the virtual
    camera, sleeps) is recorded as an [Event].  A loop that need not end
    takes a number of passes (fuel) and says whether it has ended. *)

From Stdlib Require Import ZArith List Bool Lia.
From stdpp Require Import base list.
Import ListNotations.

Local Open Scope Z_scope.

(** ** Frames

    A frame is a numpy array of shape (height, width, 3) and dtype uint8:
    a list of rows, each row a list of pixels, each pixel three channel
    values. *)

Definition Pixel : Type := Z * Z * Z.
Abbreviation Frame := (list (list Pixel)).

(** cv2.cvtColor(frame, cv2.COLOR_BGR2RGB): the first and third channel of
    every pixel are exchanged. *)
Definition swap_channels (p : Pixel) : Pixel :=
  let '(c0, c1, c2) := p in (c2, c1, c0).

Definition cvtColor_BGR2RGB (frame : Frame) : Frame :=
  map (map swap_channels) frame.

(** ** queue.Queue, restricted to the operations the program calls *)

Module Queue.

Record t (A : Type) : Type := mk { maxsize : nat; items : list A }.
Arguments mk {A} _ _.
Arguments maxsize {A} _.
Arguments items {A} _.

(** queue.Queue(maxsize=n) *)
Definition create {A} (n : nat) : t A := mk n [].

(** A queue with maxsize <= 0 is unbounded; otherwise it is full when it
    holds maxsize items. *)
Definition full {A} (q : t A) : bool :=
  (0 <? maxsize q)%nat && (maxsize q <=? length (items q))%nat.

(** put_nowait: [None] stands for the exception queue.Full. *)
Definition put_nowait {A} (q : t A) (x : A) : option (t A) :=
  if full q then None else Some (mk (maxsize q) (items q ++ [x])).

(** get_nowait: [None] stands for the exception queue.Empty. *)
Definition get_nowait {A} (q : t A) : option (A * t A) :=
  match items q with
  | [] => None
  | x :: rest => Some (x, mk (maxsize q) rest)
  end.

(** get(timeout=...): the caller blocks until an item is there or the
    timeout has passed.  No producer runs inside one call of the embedding,
    so the call returns the head item when there is one and raises
    queue.Empty ([None]) otherwise. *)
Definition get {A} (q : t A) : option (A * t A) := get_nowait q.

End Queue.

(** ** The virtual camera (pyvirtualcam.Camera)

    fps is the Python float frame_rate_n / frame_rate_d; it is kept as the
    exact quotient of the two integers. *)

Record Fps : Type := { fps_n : Z; fps_d : Z }.

Record Camera : Type := { cam_width : Z; cam_height : Z; cam_fps : Fps }.

(** Exceptions the embedded code raises and catches. *)
Inductive Exn : Type :=
| AVError
| IndexError
| AttributeError
| ValueError
| ZeroDivisionError
| OtherException.

(** The result of a call that may raise: the state reached, and the
    exception if one is propagating. *)
Inductive Result (S : Type) : Type :=
| Ok (s : S)
| Raise (e : Exn) (s : S).
Arguments Ok {S} _.
Arguments Raise {S} _ _.

Definition state_of {S} (r : Result S) : S :=
  match r with Ok s => s | Raise _ s => s end.

Definition raised {S} (r : Result S) : option Exn :=
  match r with Ok _ => None | Raise e _ => Some e end.

(** ** Events observable from outside the two threads *)

Inductive Event : Type :=
(* signals of VideoThread *)
| frame_ready_signal (img : Frame)
| virtual_cam_frame_ready_signal (img : Frame)
| connection_lost_signal
| connection_established_signal
| reconnection_attempt_signal (wait : Z)
(* calls of VideoThread on the VirtualCamSendThread it was given *)
| call_send_frame (img : Frame)
| call_set_frame_rate (frame_rate_n frame_rate_d : Z)
(* signal of VirtualCamSendThread *)
| virtual_cam_frame_sent_signal (frame : Frame)
(* calls on the virtual camera *)
| cam_send (frame_rgb : Frame)
| cam_sleep_until_next_frame
| cam_close
(* time.sleep(0.1) of the sender thread while no camera is open *)
| sleep_tenth.

(** ** VirtualCamSendThread *)

Module VirtualCamSendThread.

Record t : Type := mk {
  queue : Queue.t Frame;
  running : bool;
  frame_rate_n : option Z;
  frame_rate_d : option Z;
  send_test_pattern : bool;
  test_pattern_resolution : Z * Z;   (* width, height *)
  virtual_cam : option Camera
}.

(** __init__, lines 40-48 *)
Definition init : t :=
  {| queue := Queue.create 1;
     running := true;
     frame_rate_n := None;
     frame_rate_d := None;
     send_test_pattern := true;
     test_pattern_resolution := (1920, 1080);
     virtual_cam := None |}.

Definition set_queue (q : Queue.t Frame) (s : t) : t :=
  mk q (running s) (frame_rate_n s) (frame_rate_d s) (send_test_pattern s)
     (test_pattern_resolution s) (virtual_cam s).

Definition set_running (b : bool) (s : t) : t :=
  mk (queue s) b (frame_rate_n s) (frame_rate_d s) (send_test_pattern s)
     (test_pattern_resolution s) (virtual_cam s).

Definition set_frame_rate_fields (n d : Z) (s : t) : t :=
  mk (queue s) (running s) (Some n) (Some d) (send_test_pattern s)
     (test_pattern_resolution s) (virtual_cam s).

Definition set_send_test_pattern (b : bool) (s : t) : t :=
  mk (queue s) (running s) (frame_rate_n s) (frame_rate_d s) b
     (test_pattern_resolution s) (virtual_cam s).

Definition set_virtual_cam (c : option Camera) (s : t) : t :=
  mk (queue s) (running s) (frame_rate_n s) (frame_rate_d s)
     (send_test_pattern s) (test_pattern_resolution s) c.

(** send_frame, lines 106-129 *)
Definition send_frame (frame : Frame) (s : t) : t :=
  if send_test_pattern s then s                            (* 111-114 *)
  else
    match Queue.put_nowait (queue s) frame with            (* 117 *)
    | Some q => set_queue q s
    | None =>                                              (* 119: queue.Full *)
        let q1 :=
          match Queue.get_nowait (queue s) with            (* 121 *)
          | Some (_discarded_frame, q') => q'
          | None => queue s                                (* 123-124 *)
          end in
        match Queue.put_nowait q1 frame with               (* 126 *)
        | Some q2 => set_queue q2 s
        | None => set_queue q1 s                           (* 128-129 *)
        end
    end.

(** The take of the sender loop, line 70: queue.get(timeout=1). *)
Definition take (s : t) : option (Frame * t) :=
  match Queue.get (queue s) with
  | Some (frame, q) => Some (frame, set_queue q s)
  | None => None
  end.

(** enable_test_pattern, lines 151-157 *)
Definition enable_test_pattern (s : t) : t :=
  if negb (send_test_pattern s) then set_send_test_pattern true s else s.

(** disable_test_pattern, lines 159-165 *)
Definition disable_test_pattern (s : t) : t :=
  if send_test_pattern s then set_send_test_pattern false s else s.

(** np.zeros((height, width, 3), dtype=np.uint8): numpy raises ValueError on
    a negative dimension. *)
Definition np_zeros (height width : Z) : Exn + Frame :=
  if (height <? 0) || (width <? 0) then inl ValueError
  else inr (replicate (Z.to_nat height) (replicate (Z.to_nat width) (0, 0, 0))).

(** A bound of a Python slice over a sequence of length [len]: a negative
    bound counts from the end, and every bound is clipped to [0, len]. *)
Definition slice_bound (len i : Z) : Z :=
  if i <? 0 then Z.max 0 (i + len) else Z.min i len.

(** frame[start:stop, :] = color *)
Definition assign_rows (start stop : Z) (color : Pixel) (frame : Frame) : Frame :=
  let len := Z.of_nat (length frame) in
  let a := slice_bound len start in
  let b := slice_bound len stop in
  imap (fun r row =>
          if (a <=? Z.of_nat r) && (Z.of_nat r <? b)
          then map (fun _ => color) row
          else row) frame.

(** lines 173-182 *)
Definition colors : list Pixel :=
  [ (255, 255, 255);  (* White *)
    (255, 255, 0);    (* Yellow *)
    (0, 255, 255);    (* Cyan *)
    (0, 255, 0);      (* Green *)
    (255, 0, 255);    (* Magenta *)
    (255, 0, 0);      (* Red *)
    (0, 0, 255);      (* Blue *)
    (0, 0, 0) ].      (* Black *)

Definition enumerate {A} (l : list A) : list (Z * A) :=
  imap (fun i x => (Z.of_nat i, x)) l.

(** The try block of create_test_pattern, lines 172-186.  [/] on Z is the
    floor division of Python's [//]. *)
Definition create_test_pattern_try (width height : Z) : Exn + Frame :=
  let bar_height := height / 8 in
  match np_zeros height width with
  | inl e => inl e
  | inr frame =>
      inr (foldl (fun fr ic =>
                    assign_rows (fst ic * bar_height) ((fst ic + 1) * bar_height)
                                (snd ic) fr)
                 frame (enumerate colors))
  end.

(** create_test_pattern, lines 167-189: the handler of line 187 calls
    np.zeros again, outside any try. *)
Definition create_test_pattern (width height : Z) : Exn + Frame :=
  match create_test_pattern_try width height with
  | inr frame => inr frame
  | inl _ => np_zeros height width
  end.

(** set_frame_rate, lines 131-149.  [camera_opens] tells whether
    pyvirtualcam.Camera(...) returns a device or raises. *)
Definition set_frame_rate (camera_opens : bool) (n d : Z) (s : t) : Result t :=
  let s := set_frame_rate_fields n d s in                     (* 135-136 *)
  if d =? 0 then Raise ZeroDivisionError s                    (* 137 *)
  else
    let fps := {| fps_n := n; fps_d := d |} in
    match virtual_cam s with
    | None =>                                                 (* 138 *)
        if camera_opens then
          let width := fst (test_pattern_resolution s) in
          let height := snd (test_pattern_resolution s) in
          Ok (set_virtual_cam
                (Some {| cam_width := width; cam_height := height;
                         cam_fps := fps |}) s)                (* 142 *)
        else Ok (set_running false s)                         (* 144-146 *)
    | Some _ => Ok s                                          (* 147-148 *)
    end.

(** send_frame_to_virtual_cam, lines 88-104.  [cam_accepts] tells whether
    virtual_cam.send takes the frame or raises; the exception is caught at
    line 103. *)
Definition send_frame_to_virtual_cam (cam_accepts : Frame -> bool)
    (frame : Frame) : list Event :=
  let frame_rgb := cvtColor_BGR2RGB frame in
  if cam_accepts frame_rgb
  then [cam_send frame_rgb; cam_sleep_until_next_frame]
  else [].

(** One pass through the loop of run, lines 52-86. *)
Inductive Step : Type :=
| Continue (s : t) (out : list Event)
| Exit (s : t) (out : list Event)
| Crash (e : Exn) (s : t).

Definition run_iteration (cam_accepts : Frame -> bool) (s : t) : Step :=
  if negb (running s) then                                    (* 52, 84-86 *)
    Exit s (match virtual_cam s with Some _ => [cam_close] | None => [] end)
  else
    match virtual_cam s with
    | None => Continue s [sleep_tenth]                        (* 53-55 *)
    | Some _ =>
        if send_test_pattern s then                           (* 56 *)
          match create_test_pattern (fst (test_pattern_resolution s))
                                    (snd (test_pattern_resolution s)) with
          | inl e => Crash e s
          | inr frame =>
              Continue s (send_frame_to_virtual_cam cam_accepts frame
                          ++ [virtual_cam_frame_sent_signal frame;
                              cam_sleep_until_next_frame])    (* 61-67 *)
          end
        else
          match take s with                                   (* 70 *)
          | Some (frame, s') =>
              Continue s' (send_frame_to_virtual_cam cam_accepts frame
                           ++ [virtual_cam_frame_sent_signal frame])
          | None => Continue s []                             (* 77-79 *)
          end
    end.

(** [n] passes through the loop, with everything they emitted. *)
Fixpoint run_steps (cam_accepts : Frame -> bool) (n : nat) (s : t)
    : t * list Event :=
  match n with
  | O => (s, [])
  | S n' =>
      match run_iteration cam_accepts s with
      | Continue s' out =>
          let '(s'', out') := run_steps cam_accepts n' s' in (s'', out ++ out')
      | Exit s' out => (s', out)
      | Crash _ s' => (s', [])
      end
  end.

(** stop, lines 191-197: the request of line 195; wait() then blocks until
    run has left its loop. *)
Definition stop (s : t) : t := set_running false s.

End VirtualCamSendThread.

(** ** The network source, as the program sees it through PyAV *)

(** fractions.Fraction: the denominator is positive. *)
Record Fraction : Type := { numerator : Z; denominator : positive }.

Record Stream : Type := { average_rate : option Fraction }.

(** A packet of container.demux(): [arrives_after] is the time the generator
    blocks before it yields the packet; [decode] is what packet.decode()
    returns, a list of frames already converted by to_ndarray (an entry may
    be None), or the exception it raises. *)
Record Packet : Type := {
  arrives_after : Z;
  dts : option Z;
  decode : Exn + list (option Frame)
}.

(** An opened container: its video streams, the packets demux() yields, and
    how the generator ends: exhausted ([None]) or raising. *)
Record Container : Type := {
  streams_video : list Stream;
  demux : list Packet;
  demux_end : option Exn
}.

Inductive OpenOutcome : Type :=
| open_raises (e : Exn)
| opened (c : Container).

(** The surroundings of one run of the program: what the k-th call of av.open
    does, whether the virtual camera device can be opened, and the time at
    which another thread calls stop (if it does). *)
Record Env : Type := {
  av_open : nat -> OpenOutcome;
  camera_opens : bool;
  stop_at : option Z
}.

(** ** VideoThread *)

Module VideoThread.

(** The attributes of the thread object, the VirtualCamSendThread it shares
    with the rest of the program, and the bookkeeping of the embedding: the
    time in seconds, the number of av.open calls made, and the events so
    far, oldest first. *)
Record t : Type := mk {
  virtual_cam_send_thread : VirtualCamSendThread.t;
  running : bool;
  connection_established : bool;
  container : option Container;
  should_reconnect : bool;
  is_reconnecting : bool;
  initial_wait : Z;
  max_wait : Z;
  current_wait : Z;
  clock : Z;
  opens : nat;
  trace : list Event
}.

(** __init__, lines 212-226 *)
Definition init (sender : VirtualCamSendThread.t) : t :=
  {| virtual_cam_send_thread := sender;
     running := true;
     connection_established := false;
     container := None;
     should_reconnect := true;
     is_reconnecting := false;
     initial_wait := 1;
     max_wait := 32;
     current_wait := 1;
     clock := 0;
     opens := O;
     trace := [] |}.

Definition set_sender (s : VirtualCamSendThread.t) (w : t) : t :=
  mk s (running w) (connection_established w) (container w)
     (should_reconnect w) (is_reconnecting w) (initial_wait w) (max_wait w)
     (current_wait w) (clock w) (opens w) (trace w).

Definition set_running (b : bool) (w : t) : t :=
  mk (virtual_cam_send_thread w) b (connection_established w) (container w)
     (should_reconnect w) (is_reconnecting w) (initial_wait w) (max_wait w)
     (current_wait w) (clock w) (opens w) (trace w).

Definition set_connection_established (b : bool) (w : t) : t :=
  mk (virtual_cam_send_thread w) (running w) b (container w)
     (should_reconnect w) (is_reconnecting w) (initial_wait w) (max_wait w)
     (current_wait w) (clock w) (opens w) (trace w).

Definition set_container (c : option Container) (w : t) : t :=
  mk (virtual_cam_send_thread w) (running w) (connection_established w) c
     (should_reconnect w) (is_reconnecting w) (initial_wait w) (max_wait w)
     (current_wait w) (clock w) (opens w) (trace w).

Definition set_should_reconnect (b : bool) (w : t) : t :=
  mk (virtual_cam_send_thread w) (running w) (connection_established w)
     (container w) b (is_reconnecting w) (initial_wait w) (max_wait w)
     (current_wait w) (clock w) (opens w) (trace w).

Definition set_is_reconnecting (b : bool) (w : t) : t :=
  mk (virtual_cam_send_thread w) (running w) (connection_established w)
     (container w) (should_reconnect w) b (initial_wait w) (max_wait w)
     (current_wait w) (clock w) (opens w) (trace w).

Definition set_current_wait (x : Z) (w : t) : t :=
  mk (virtual_cam_send_thread w) (running w) (connection_established w)
     (container w) (should_reconnect w) (is_reconnecting w) (initial_wait w)
     (max_wait w) x (clock w) (opens w) (trace w).

Definition set_clock (x : Z) (w : t) : t :=
  mk (virtual_cam_send_thread w) (running w) (connection_established w)
     (container w) (should_reconnect w) (is_reconnecting w) (initial_wait w)
     (max_wait w) (current_wait w) x (opens w) (trace w).

Definition set_opens (k : nat) (w : t) : t :=
  mk (virtual_cam_send_thread w) (running w) (connection_established w)
     (container w) (should_reconnect w) (is_reconnecting w) (initial_wait w)
     (max_wait w) (current_wait w) (clock w) k (trace w).

Definition set_trace (l : list Event) (w : t) : t :=
  mk (virtual_cam_send_thread w) (running w) (connection_established w)
     (container w) (should_reconnect w) (is_reconnecting w) (initial_wait w)
     (max_wait w) (current_wait w) (clock w) (opens w) l.

(** signal.emit(...), and the record of a call on the sender thread *)
Definition emit (e : Event) (w : t) : t := set_trace (trace w ++ [e]) w.

(** The thread blocks for [d] seconds (time.sleep, or the demux generator
    waiting for a packet).  Nothing interrupts it.  When the stop of another
    thread falls before the end of the wait, its line 369 has set running to
    False by the time the thread goes on. *)
Definition elapse (env : Env) (d : Z) (w : t) : t :=
  let now := clock w + d in
  let w := set_clock now w in
  match stop_at env with
  | Some s => if s <=? now then set_running false w else w
  | None => w
  end.

(** The rate connect_stream resolves, lines 304-312: a Fraction is true when
    it is not zero. *)
Definition resolve_rate (stream : Stream) : Z * Z :=
  match average_rate stream with
  | Some r =>
      if numerator r =? 0 then (25, 1)
      else (numerator r, Zpos (denominator r))
  | None => (25, 1)
  end.

(** The two handlers of connect_stream, lines 326-333 *)
Definition connect_failed (w : t) : t :=
  set_container None (set_connection_established false w).

(** connect_stream, lines 282-333 *)
Definition connect_stream (env : Env) (w : t) : t :=
  let w := set_container None w in                            (* 284-286 *)
  let k := opens w in
  let w := set_opens (S k) w in
  match av_open env k with                                    (* 299 *)
  | open_raises _ => connect_failed w
  | opened c =>
      let w := set_container (Some c) w in
      match streams_video c with                              (* 303 *)
      | [] => connect_failed w                                (* IndexError *)
      | stream :: _ =>
          let n := fst (resolve_rate stream) in
          let d := snd (resolve_rate stream) in
          let w := emit (call_set_frame_rate n d) w in        (* 315 *)
          match VirtualCamSendThread.set_frame_rate
                  (camera_opens env) n d (virtual_cam_send_thread w) with
          | Raise _ s => connect_failed (set_sender s w)
          | Ok s =>
              let w := set_sender s w in
              let w := set_connection_established true w in   (* 317 *)
              let w := emit connection_established_signal w in
              let w := set_sender
                         (VirtualCamSendThread.disable_test_pattern
                            (virtual_cam_send_thread w)) w in (* 321 *)
              set_is_reconnecting false w                     (* 324 *)
          end
      end
  end.

(** A loop that has not ended when the fuel is used up is [Pending] in the
    state it has reached. *)
Inductive Run : Type :=
| Finished (w : t)
| Pending (w : t).

Definition world_of (r : Run) : t :=
  match r with Finished w => w | Pending w => w end.

(** attempt_reconnection, lines 351-365 *)
Fixpoint attempt_reconnection (fuel : nat) (env : Env) (w : t) : Run :=
  if running w && should_reconnect w && is_reconnecting w then (* 352 *)
    match fuel with
    | O => Pending w
    | S fuel' =>
        let w := emit (reconnection_attempt_signal (current_wait w)) w in
        let w := elapse env (current_wait w) w in             (* 355 *)
        if negb (running w) then Finished w                   (* 356-358 *)
        else
          let w := connect_stream env w in                    (* 359 *)
          if connection_established w then Finished w         (* 360-362 *)
          else
            attempt_reconnection fuel' env
              (set_current_wait
                 (Z.min (current_wait w * 2) (max_wait w)) w) (* 364 *)
    end
  else Finished w.

(** The part of handle_disconnection under the lock, lines 336-346; the
    boolean tells whether line 344 returned. *)
Definition handle_disconnection_locked (w : t) : t * bool :=
  let w :=
    if connection_established w then
      let w := emit connection_lost_signal w in
      let w := set_sender (VirtualCamSendThread.enable_test_pattern
                             (virtual_cam_send_thread w)) w in
      set_connection_established false w
    else w in
  if is_reconnecting w then (w, true)
  else (set_is_reconnecting true w, false).

(** handle_disconnection, lines 335-349 *)
Definition handle_disconnection (fuel : nat) (env : Env) (w : t) : Run :=
  let '(w, returned) := handle_disconnection_locked w in
  if returned then Finished w
  else if should_reconnect w then attempt_reconnection fuel env w
  else Finished w.

(** The inner loop of run, lines 252-268 *)
Fixpoint decode_loop (frames : list (option Frame)) (w : t) : t :=
  match frames with
  | [] => w
  | frame :: rest =>
      if negb (running w) then w                              (* 254-256 *)
      else
        match frame with
        | None => decode_loop rest w                          (* 257-258 *)
        | Some img =>
            let w := emit (frame_ready_signal img) w in       (* 262 *)
            let w := emit (call_send_frame img) w in
            let w := set_sender (VirtualCamSendThread.send_frame img
                                   (virtual_cam_send_thread w)) w in (* 265 *)
            let w := emit (virtual_cam_frame_ready_signal img) w in  (* 268 *)
            decode_loop rest w
        end
  end.

(** The outer loop of run, lines 245-268 *)
Fixpoint demux_loop (env : Env) (packets : list Packet)
    (generator_end : option Exn) (w : t) : Result t :=
  match packets with
  | [] =>
      match generator_end with
      | None => Ok w
      | Some e => Raise e w
      end
  | packet :: rest =>
      let w := elapse env (arrives_after packet) w in
      if negb (running w) then Ok w                           (* 247-249 *)
      else
        match dts packet with
        | None => demux_loop env rest generator_end w         (* 250-251 *)
        | Some _ =>
            match decode packet with                          (* 252 *)
            | inl e => Raise e w
            | inr frames =>
                demux_loop env rest generator_end (decode_loop frames w)
            end
        end
  end.

(** The finally clause of run, lines 276-280 *)
Definition finally (w : t) : t := set_container None w.

(** The try block of run after a successful connect_stream, lines 241-268 *)
Definition read_stream (env : Env) (w : t) : Result t :=
  let w := set_current_wait (initial_wait w) w in             (* 242 *)
  match container w with
  | None => Raise AttributeError w
  | Some c => demux_loop env (demux c) (demux_end c) w        (* 245 *)
  end.

(** Lines 235-237 of run: the first connection attempt has failed. *)
Definition connect_lost (w : t) : t :=
  let w := emit connection_lost_signal w in
  let w := set_sender (VirtualCamSendThread.enable_test_pattern
                         (virtual_cam_send_thread w)) w in
  set_is_reconnecting true w.

(** run, lines 228-280.  Both handlers, lines 270-275, call
    handle_disconnection. *)
Fixpoint run (fuel : nat) (env : Env) (w : t) : Run :=
  if running w then                                           (* 229 *)
    match fuel with
    | O => Pending w
    | S fuel' =>
        let w := connect_stream env w in                      (* 231 *)
        if negb (connection_established w) then               (* 232 *)
          if negb (is_reconnecting w) then                    (* 234 *)
            match attempt_reconnection fuel' env
                    (connect_lost w) with                     (* 235-238 *)
            | Pending w' => Pending w'
            | Finished w' => run fuel' env (finally w')       (* 239 *)
            end
          else run fuel' env (finally w)
        else
          match read_stream env w with
          | Ok w' => run fuel' env (finally w')
          | Raise _ w' =>
              match handle_disconnection fuel' env w' with
              | Pending w'' => Pending w''
              | Finished w'' => run fuel' env (finally w'')
              end
          end
    end
  else Finished w.

(** stop, lines 367-377: the request (368-369), the wait for the thread to
    finish (370), and the clean up (371-376). *)
Definition stop_request (w : t) : t := set_running false w.

Definition stop_cleanup (w : t) : t :=
  set_is_reconnecting false (set_should_reconnect false (set_container None w)).

(** stop called between two passes of the loops of a thread that had [fuel]
    left: [None] when the thread has not finished, so that wait() has not
    returned. *)
Definition stop (fuel : nat) (env : Env) (w : t) : option t :=
  match run fuel env (stop_request w) with
  | Finished w' => Some (stop_cleanup w')
  | Pending _ => None
  end.

End VideoThread.

(** ** Vocabulary of the statements *)

(** A sequence of send_frame calls, oldest first. *)
Definition submit_all (fs : list Frame) (s : VirtualCamSendThread.t)
    : VirtualCamSendThread.t :=
  foldl (fun s f => VirtualCamSendThread.send_frame f s) s fs.

(** The invariant of the slot: queue.Queue(maxsize=1) holding at most one
    frame. *)
Definition single_slot (s : VirtualCamSendThread.t) : Prop :=
  Queue.maxsize (VirtualCamSendThread.queue s) = 1%nat /\
  (length (Queue.items (VirtualCamSendThread.queue s)) <= 1)%nat.

(** send_frame when the take of the sender loop (line 70) runs between the
    put_nowait that raised queue.Full (line 117) and the get_nowait of
    line 121: the state reached, and the frame the sender loop has taken. *)
Definition send_frame_racing (frame : Frame) (s : VirtualCamSendThread.t)
    : VirtualCamSendThread.t * option Frame :=
  if VirtualCamSendThread.send_test_pattern s then (s, None)
  else
    match Queue.put_nowait (VirtualCamSendThread.queue s) frame with
    | Some q => (VirtualCamSendThread.set_queue q s, None)
    | None =>
        let taken := Queue.get (VirtualCamSendThread.queue s) in
        let q0 := match taken with
                  | Some (_, q') => q'
                  | None => VirtualCamSendThread.queue s
                  end in
        let q1 := match Queue.get_nowait q0 with
                  | Some (_, q') => q'
                  | None => q0
                  end in
        let q2 := match Queue.put_nowait q1 frame with
                  | Some q' => q'
                  | None => q1
                  end in
        (VirtualCamSendThread.set_queue q2 s, fst <$> taken)
    end.

(** What the two threads may do to the sender object, in any order: a
    send_frame call of the video thread, or one pass of the sender loop. *)
Inductive RelayOp : Type :=
| op_submit (f : Frame)
| op_sender_pass.

Definition step_state (st : VirtualCamSendThread.Step) : VirtualCamSendThread.t :=
  match st with
  | VirtualCamSendThread.Continue s _ => s
  | VirtualCamSendThread.Exit s _ => s
  | VirtualCamSendThread.Crash _ s => s
  end.

Fixpoint relay_ops (cam_accepts : Frame -> bool) (ops : list RelayOp)
    (s : VirtualCamSendThread.t) : VirtualCamSendThread.t :=
  match ops with
  | [] => s
  | op_submit f :: rest =>
      relay_ops cam_accepts rest (VirtualCamSendThread.send_frame f s)
  | op_sender_pass :: rest =>
      relay_ops cam_accepts rest
        (step_state (VirtualCamSendThread.run_iteration cam_accepts s))
  end.

(** The pixel at row [r], column [c] of a frame. *)
Definition pixel_at (frame : Frame) (r c : Z) : option Pixel :=
  if (r <? 0) || (c <? 0) then None
  else
    match frame !! Z.to_nat r with
    | Some row => row !! Z.to_nat c
    | None => None
    end.

(** A frame has the shape (height, width, 3). *)
Definition has_shape (frame : Frame) (height width : Z) : Prop :=
  Z.of_nat (length frame) = height /\
  Forall (fun row : list Pixel => Z.of_nat (length row) = width) frame.

(** The colors of the bars, named as the comments of lines 174-181 name
    them. *)
Definition white : Pixel := (255, 255, 255).
Definition yellow : Pixel := (255, 255, 0).
Definition cyan : Pixel := (0, 255, 255).
Definition green : Pixel := (0, 255, 0).
Definition magenta : Pixel := (255, 0, 255).
Definition red : Pixel := (255, 0, 0).
Definition blue : Pixel := (0, 0, 255).
Definition black : Pixel := (0, 0, 0).

Definition black_frame (height width : Z) : Frame :=
  replicate (Z.to_nat height) (replicate (Z.to_nat width) black).

(** Every row [i] of the frame is [m] pixels of the color [g i]. *)
Definition rows_colored (n m : nat) (g : nat -> Pixel) (frame : Frame) : Prop :=
  length frame = n /\
  forall i, (i < n)%nat -> frame !! i = Some (replicate m (g i)).

(** The color of row [i] when the eight assignments of line 185 have run,
    the last assignment looked at first. *)
Definition bar_color (bar_height : Z) (i : nat) : Pixel :=
  let covers (k : Z) :=
    (k * bar_height <=? Z.of_nat i) && (Z.of_nat i <? (k + 1) * bar_height) in
  if covers 7 then black
  else if covers 6 then blue
  else if covers 5 then red
  else if covers 4 then magenta
  else if covers 3 then green
  else if covers 2 then cyan
  else if covers 1 then yellow
  else if covers 0 then white
  else (0, 0, 0).

(** A sequence of set_frame_rate calls, oldest first; an exception of a call
    (a zero denominator) is caught by the caller, line 330, and the state
    the call has reached stays. *)
Definition set_frame_rate_all (camera_opens : bool) (rates : list (Z * Z))
    (s : VirtualCamSendThread.t) : VirtualCamSendThread.t :=
  foldl (fun s r =>
           state_of (VirtualCamSendThread.set_frame_rate
                       camera_opens (fst r) (snd r) s))
        s rates.

(** The program at start: MainWindow creates the sender thread (line 386)
    and connect_to_stream the video thread (line 460). *)
Definition start : VideoThread.t := VideoThread.init VirtualCamSendThread.init.

(** A source address that cannot be reached: every av.open raises. *)
Definition unreachable (env : Env) : Prop :=
  forall k, exists e, av_open env k = open_raises e.

Definition never_opens : Env :=
  {| av_open := fun _ => open_raises AVError;
     camera_opens := true;
     stop_at := None |}.

(** The reconnection_attempt signals number [i], ..., [i + n - 1] of a
    sequence that doubles from 1 up to 32. *)
Definition backoff_signals (i n : nat) : list Event :=
  map (fun j => reconnection_attempt_signal (Z.min (2 ^ Z.of_nat j) 32))
      (seq i n).

(** The thread is inside the loop of attempt_reconnection. *)
Definition in_backoff (w : VideoThread.t) : Prop :=
  VideoThread.running w = true /\
  VideoThread.should_reconnect w = true /\
  VideoThread.is_reconnecting w = true.

(** The frames handed to the virtual camera among the events of the sender
    thread. *)
Definition frames_sent (out : list Event) : list Frame :=
  omap (fun e => match e with cam_send f => Some f | _ => None end) out.

(** The fifth av.open (the fourth reconnection attempt) succeeds, on a source
    that gives no rate and no packet; every other av.open raises. *)
Definition opens_once : Env :=
  {| av_open := fun k =>
       match k with
       | 4%nat => opened {| streams_video := [ {| average_rate := None |} ];
                            demux := [];
                            demux_end := None |}
       | _ => open_raises AVError
       end;
     camera_opens := true;
     stop_at := None |}.

(** The source cannot be reached, and stop is called at second 32. *)
Definition stopped_at_32 : Env :=
  {| av_open := fun _ => open_raises AVError;
     camera_opens := true;
     stop_at := Some 32 |}.

(** The sender thread hands a frame to the device within any [n] > 0 passes
    of its loop, at whatever point of the video thread's run on an address
    that cannot be reached. *)
Definition sink_never_silent : Prop :=
  forall fuel n : nat,
    (0 < n)%nat ->
    frames_sent
      (snd (VirtualCamSendThread.run_steps (fun _ => true) n
              (VideoThread.virtual_cam_send_thread
                 (VideoThread.world_of
                    (VideoThread.run fuel never_opens start))))) <> [].

(** A stop that falls inside a backoff sleep ends the sleep before its
    time. *)
Definition stop_aborts_backoff_sleep : Prop :=
  forall (env : Env) (fuel : nat) (w w' : VideoThread.t) (s : Z),
    in_backoff w ->
    stop_at env = Some s ->
    VideoThread.clock w < s < VideoThread.clock w + VideoThread.current_wait w ->
    VideoThread.attempt_reconnection (S fuel) env w = VideoThread.Finished w' ->
    VideoThread.clock w' < VideoThread.clock w + VideoThread.current_wait w.

(** The three things run does with a decoded frame, lines 262-268. *)
Definition forward_events (img : Frame) : list Event :=
  [frame_ready_signal img; call_send_frame img;
   virtual_cam_frame_ready_signal img].

Definition is_frame_event (e : Event) : bool :=
  match e with
  | frame_ready_signal _ | call_send_frame _
  | virtual_cam_frame_ready_signal _ => true
  | _ => false
  end.

(** The frames of the packets up to the first failing decode: packets
    without a dts and None entries are left out. *)
Fixpoint valid_frames (packets : list Packet) : list Frame :=
  match packets with
  | [] => []
  | packet :: rest =>
      match dts packet with
      | None => valid_frames rest
      | Some _ =>
          match decode packet with
          | inl _ => []
          | inr frames => omap id frames ++ valid_frames rest
          end
      end
  end.

(** The first exception of a stream: a failing decode of a packet with a
    dts, or else the way the demux generator ends. *)
Fixpoint read_error (packets : list Packet) (generator_end : option Exn)
    : option Exn :=
  match packets with
  | [] => generator_end
  | packet :: rest =>
      match dts packet with
      | None => read_error rest generator_end
      | Some _ =>
          match decode packet with
          | inl e => Some e
          | inr _ => read_error rest generator_end
          end
      end
  end.

(** Two states of the video thread agree on everything but the sender
    object, the clock and the trace. *)
Definition same_thread_flags (w w' : VideoThread.t) : Prop :=
  VideoThread.running w' = VideoThread.running w /\
  VideoThread.connection_established w' = VideoThread.connection_established w /\
  VideoThread.container w' = VideoThread.container w /\
  VideoThread.should_reconnect w' = VideoThread.should_reconnect w /\
  VideoThread.is_reconnecting w' = VideoThread.is_reconnecting w /\
  VideoThread.initial_wait w' = VideoThread.initial_wait w /\
  VideoThread.max_wait w' = VideoThread.max_wait w /\
  VideoThread.current_wait w' = VideoThread.current_wait w /\
  VideoThread.opens w' = VideoThread.opens w.


(** The frames of the virtual_cam_frame_sent signals among the events of the
    sender thread. *)
Definition frames_signalled (out : list Event) : list Frame :=
  omap (fun e => match e with
                 | virtual_cam_frame_sent_signal f => Some f
                 | _ => None
                 end) out.

(** The frames of the send_frame calls of a sequence of operations. *)
Definition submitted (ops : list RelayOp) : list Frame :=
  omap (fun op => match op with
                  | op_submit f => Some f
                  | op_sender_pass => None
                  end) ops.

(** The operations of the two threads on the sender object, with what the
    sender loop emits; [alive] tells whether the loop of run is still
    turning (it is not any more once it has exited or an exception has left
    it). *)
Fixpoint relay_run (cam_accepts : Frame -> bool) (alive : bool)
    (ops : list RelayOp) (s : VirtualCamSendThread.t)
    : VirtualCamSendThread.t * list Event :=
  match ops with
  | [] => (s, [])
  | op_submit f :: rest =>
      relay_run cam_accepts alive rest (VirtualCamSendThread.send_frame f s)
  | op_sender_pass :: rest =>
      if alive then
        match VirtualCamSendThread.run_iteration cam_accepts s with
        | VirtualCamSendThread.Continue s' out =>
            (fst (relay_run cam_accepts true rest s'),
             out ++ snd (relay_run cam_accepts true rest s'))
        | VirtualCamSendThread.Exit s' out =>
            (fst (relay_run cam_accepts false rest s'),
             out ++ snd (relay_run cam_accepts false rest s'))
        | VirtualCamSendThread.Crash _ s' =>
            relay_run cam_accepts false rest s'
        end
      else relay_run cam_accepts false rest s
  end.

(** A sequence of mode switches, oldest first: [true] is a call of
    enable_test_pattern, [false] a call of disable_test_pattern. *)
Definition switch_modes (calls : list bool) (s : VirtualCamSendThread.t)
    : VirtualCamSendThread.t :=
  foldl (fun s (b : bool) =>
           if b then VirtualCamSendThread.enable_test_pattern s
           else VirtualCamSendThread.disable_test_pattern s)
        s calls.

(** What one pass of the sender loop emits for a test pattern frame that
    the device takes, lines 58-67. *)
Definition test_pattern_pass (pattern : Frame) : list Event :=
  [cam_send (cvtColor_BGR2RGB pattern); cam_sleep_until_next_frame;
   virtual_cam_frame_sent_signal pattern; cam_sleep_until_next_frame].

(** The signals that tell the observer of a lost connection. *)
Definition is_loss_event (e : Event) : bool :=
  match e with
  | connection_lost_signal | reconnection_attempt_signal _ => true
  | _ => false
  end.

(** A reconnection_attempt signal carries a wait between the initial wait and
    the maximum wait. *)
Definition wait_in_bounds (e : Event) : Prop :=
  match e with
  | reconnection_attempt_signal wait => 1 <= wait <= 32
  | _ => True
  end.

(** A source that can always be opened, has a video stream, and whose
    streams end without an exception; nobody stops the thread. *)
Definition reopens_cleanly (env : Env) : Prop :=
  stop_at env = None /\
  forall k, exists c stream streams,
    av_open env k = opened c /\
    streams_video c = stream :: streams /\
    read_error (demux c) (demux_end c) = None.

(** The waits and their bounds as __init__ sets them, and a current wait
    between them. *)
Definition backoff_in_bounds (w : VideoThread.t) : Prop :=
  VideoThread.initial_wait w = 1 /\
  VideoThread.max_wait w = 32 /\
  1 <= VideoThread.current_wait w <= 32 /\
  Forall wait_in_bounds (VideoThread.trace w).

(** The sender object has the device [cam] open, is running, and keeps the
    resolution [res] and a slot of one frame. *)
Definition sender_serving (cam : Camera) (res : Z * Z)
    (s : VirtualCamSendThread.t) : Prop :=
  VirtualCamSendThread.virtual_cam s = Some cam /\
  VirtualCamSendThread.running s = true /\
  VirtualCamSendThread.test_pattern_resolution s = res /\
  single_slot s.

(** ** MainWindow

    The window is kept as the attributes its methods read and write: the
    sender thread object, the text and the items of the editable combo box,
    the texts of the button and of the status label, the frames the two
    preview labels show, the streaming flag, the video thread object and the
    history of URLs.  Layout and drawing are left out. *)

From Stdlib Require Strings.String DecimalString.

Module MainWindow.

Import Stdlib.Strings.String.

(** The VideoThread object a window holds: the URL it was created with, and
    whether stop has been called on it.  What the thread does is
    [VideoThread.run]. *)
Record ThreadHandle : Type := { rtsp_url : string; stopped : bool }.

Record t : Type := mk {
  virtual_cam_send_thread : VirtualCamSendThread.t;
  rtsp_input_text : string;          (* rtsp_input.currentText() *)
  rtsp_input_items : list string;    (* the items of rtsp_input *)
  connect_button : string;
  status_label : string;
  rtsp_label : option Frame;         (* the frame shown, None when cleared *)
  virtual_cam_label : option Frame;
  is_streaming : bool;
  video_thread : option ThreadHandle;
  rtsp_history : list string         (* deque(maxlen=10), leftmost first *)
}.

(** What the window shows in a dialog. *)
Inductive Dialog : Type :=
| warning (title text : string).

(** __init__, lines 381-434 *)
Definition init : t :=
  {| virtual_cam_send_thread := VirtualCamSendThread.init;
     rtsp_input_text := EmptyString;
     rtsp_input_items := [];
     connect_button := "Connect"%string;
     status_label := "Status: Disconnected"%string;
     rtsp_label := None;
     virtual_cam_label := None;
     is_streaming := false;
     video_thread := None;
     rtsp_history := [] |}.

Definition set_sender (s : VirtualCamSendThread.t) (w : t) : t :=
  mk s (rtsp_input_text w) (rtsp_input_items w) (connect_button w)
     (status_label w) (rtsp_label w) (virtual_cam_label w) (is_streaming w)
     (video_thread w) (rtsp_history w).

Definition set_rtsp_input (text : string) (items : list string) (w : t) : t :=
  mk (virtual_cam_send_thread w) text items (connect_button w)
     (status_label w) (rtsp_label w) (virtual_cam_label w) (is_streaming w)
     (video_thread w) (rtsp_history w).

Definition set_connect_button (text : string) (w : t) : t :=
  mk (virtual_cam_send_thread w) (rtsp_input_text w) (rtsp_input_items w)
     text (status_label w) (rtsp_label w) (virtual_cam_label w)
     (is_streaming w) (video_thread w) (rtsp_history w).

Definition set_status_label (text : string) (w : t) : t :=
  mk (virtual_cam_send_thread w) (rtsp_input_text w) (rtsp_input_items w)
     (connect_button w) text (rtsp_label w) (virtual_cam_label w)
     (is_streaming w) (video_thread w) (rtsp_history w).

Definition set_rtsp_label (f : option Frame) (w : t) : t :=
  mk (virtual_cam_send_thread w) (rtsp_input_text w) (rtsp_input_items w)
     (connect_button w) (status_label w) f (virtual_cam_label w)
     (is_streaming w) (video_thread w) (rtsp_history w).

Definition set_virtual_cam_label (f : option Frame) (w : t) : t :=
  mk (virtual_cam_send_thread w) (rtsp_input_text w) (rtsp_input_items w)
     (connect_button w) (status_label w) (rtsp_label w) f
     (is_streaming w) (video_thread w) (rtsp_history w).

Definition set_is_streaming (b : bool) (w : t) : t :=
  mk (virtual_cam_send_thread w) (rtsp_input_text w) (rtsp_input_items w)
     (connect_button w) (status_label w) (rtsp_label w) (virtual_cam_label w)
     b (video_thread w) (rtsp_history w).

Definition set_video_thread (th : option ThreadHandle) (w : t) : t :=
  mk (virtual_cam_send_thread w) (rtsp_input_text w) (rtsp_input_items w)
     (connect_button w) (status_label w) (rtsp_label w) (virtual_cam_label w)
     (is_streaming w) th (rtsp_history w).

Definition set_rtsp_history (h : list string) (w : t) : t :=
  mk (virtual_cam_send_thread w) (rtsp_input_text w) (rtsp_input_items w)
     (connect_button w) (status_label w) (rtsp_label w) (virtual_cam_label w)
     (is_streaming w) (video_thread w) h.

(** deque(maxlen=n).appendleft(x): a full deque drops the item at its right
    end. *)
Definition appendleft (maxlen : nat) (x : string) (d : list string)
    : list string :=
  take maxlen (x :: d).

(** [x in d] on strings *)
Definition contains (d : list string) (x : string) : bool :=
  existsb (String.eqb x) d.

(** lines 482-487 of connect_to_stream: a URL that is not in the history is
    put at its left end, and the combo box is filled again from the history
    with its first item selected. *)
Definition remember_url (url : string) (w : t) : t :=
  if negb (contains (rtsp_history w) url) then
    let w := set_rtsp_history (appendleft 10 url (rtsp_history w)) w in
    set_rtsp_input (hd EmptyString (rtsp_history w)) (rtsp_history w) w
  else w.

(** connect_to_stream, lines 444-491 *)
Definition connect_to_stream (w : t) : t * list Dialog :=
  let url := rtsp_input_text w in                             (* 447 *)
  if String.eqb url EmptyString then                          (* 449-451 *)
    (w, [warning "Input Error"%string
                 "Please enter a valid RTSP URL."%string])
  else
    let w := match video_thread w with                        (* 454-457 *)
             | Some _ => set_video_thread None w
             | None => w
             end in
    let w := set_video_thread
               (Some {| rtsp_url := url; stopped := false |}) w in (* 460-475 *)
    let w := set_is_streaming true w in                       (* 478 *)
    let w := set_status_label "Status: Connecting..."%string w in
    let w := set_connect_button "Disconnect"%string w in
    (remember_url url w, []).

(** disconnect_stream, lines 493-511 *)
Definition disconnect_stream (w : t) : t :=
  let w := set_is_streaming false w in                        (* 495 *)
  let w := set_video_thread None w in                         (* 497-500 *)
  let w := set_status_label "Status: Disconnected"%string w in
  let w := set_connect_button "Connect"%string w in
  let w := set_rtsp_label None w in
  let w := set_virtual_cam_label None w in
  set_sender (VirtualCamSendThread.enable_test_pattern
                (virtual_cam_send_thread w)) w.               (* 511 *)

(** toggle_stream, lines 436-442 *)
Definition toggle_stream (w : t) : t * list Dialog :=
  if is_streaming w then (disconnect_stream w, [])
  else connect_to_stream w.

(** update_rtsp_preview and update_virtual_cam_preview, lines 513-531 *)
Definition update_rtsp_preview (frame : Frame) (w : t) : t :=
  set_rtsp_label (Some frame) w.

Definition update_virtual_cam_preview (frame : Frame) (w : t) : t :=
  set_virtual_cam_label (Some frame) w.

(** on_connection_lost, lines 533-537 *)
Definition on_connection_lost (w : t) : t :=
  let w := set_status_label
             "Status: Connection Lost. Sending Test Pattern."%string w in
  set_sender (VirtualCamSendThread.enable_test_pattern
                (virtual_cam_send_thread w)) w.

(** on_connection_established, lines 539-543 *)
Definition on_connection_established (w : t) : t :=
  let w := set_status_label "Status: Connected"%string w in
  set_sender (VirtualCamSendThread.disable_test_pattern
                (virtual_cam_send_thread w)) w.

(** str(wait_time) *)
Definition str (z : Z) : string :=
  DecimalString.NilZero.string_of_int (Z.to_int z).

(** on_reconnection_attempt, lines 545-547 *)
Definition on_reconnection_attempt (wait_time : Z) (w : t) : t :=
  set_status_label
    ("Status: Reconnecting in " ++ str wait_time ++ " seconds...")%string w.

(** closeEvent, lines 549-563 *)
Definition closeEvent (w : t) : t :=
  let w := match video_thread w with
           | Some th =>
               set_video_thread
                 (Some {| rtsp_url := rtsp_url th; stopped := true |}) w
           | None => w
           end in
  set_sender (VirtualCamSendThread.stop (virtual_cam_send_thread w)) w.

(** What happens to the window, one event of the Qt event loop at a time:
    the user edits the text of the combo box or clicks the button, or a
    signal of one of the threads reaches its slot. *)
Inductive Action : Type :=
| edit_text (text : string)
| click_connect
| frame_ready (img : Frame)
| virtual_cam_frame (img : Frame)
| connection_lost
| connection_established
| reconnection_attempt (wait : Z).

Definition handle (a : Action) (w : t) : t :=
  match a with
  | edit_text text => set_rtsp_input text (rtsp_input_items w) w
  | click_connect => fst (toggle_stream w)
  | frame_ready img => update_rtsp_preview img w
  | virtual_cam_frame img => update_virtual_cam_preview img w
  | connection_lost => on_connection_lost w
  | connection_established => on_connection_established w
  | reconnection_attempt wait => on_reconnection_attempt wait w
  end.

Definition handle_all (actions : list Action) (w : t) : t :=
  foldl (fun w a => handle a w) w actions.

End MainWindow.

(** Invariants of the window. *)

Module WindowSpec.

Import Stdlib.Strings.String.

(** The history holds at most ten URLs, no URL twice and never the empty
    text, and the combo box lists it. *)
Definition history_ok (w : MainWindow.t) : Prop :=
  (List.length (MainWindow.rtsp_history w) <= 10)%nat /\
  NoDup (MainWindow.rtsp_history w) /\
  ~ In EmptyString (MainWindow.rtsp_history w) /\
  MainWindow.rtsp_input_items w = MainWindow.rtsp_history w.

(** The streaming flag, the thread object and the text of the button tell
    the same thing, and a thread the window holds has not been stopped and
    has a URL of the history. *)
Definition window_consistent (w : MainWindow.t) : Prop :=
  match MainWindow.video_thread w with
  | Some th =>
      MainWindow.is_streaming w = true /\
      MainWindow.connect_button w = "Disconnect"%string /\
      MainWindow.stopped th = false /\
      In (MainWindow.rtsp_url th) (MainWindow.rtsp_history w)
  | None =>
      MainWindow.is_streaming w = false /\
      MainWindow.connect_button w = "Connect"%string
  end.

End WindowSpec.

(** * Properties *)

(** ** The relay: send_frame, take and the test-pattern flag *)

Section Relay.

Import VirtualCamSendThread.

Lemma send_frame_live (f : Frame) (s : t) :
  send_test_pattern s = false -> single_slot s ->
  send_frame f s = set_queue (Queue.mk 1 [f]) s.
Proof.
  intros Hlive [Hmax Hlen].
  unfold send_frame. rewrite Hlive.
  destruct s as [[m its] r fn fd tp res cam]; simpl in *; subst m.
  destruct its as [|x [|y its]]; simpl in *; try reflexivity; lia.
Qed.

Lemma submit_all_live (fs : list Frame) (s : t) :
  send_test_pattern s = false -> single_slot s ->
  send_test_pattern (submit_all fs s) = false /\ single_slot (submit_all fs s).
Proof.
  revert s. induction fs as [|f fs IH]; intros s Hlive Hslot; [by split|].
  simpl. apply IH; rewrite send_frame_live by done; [done|].
  split; simpl; lia.
Qed.

Lemma submit_all_snoc (fs : list Frame) (f : Frame) (s : t) :
  submit_all (fs ++ [f]) s = send_frame f (submit_all fs s).
Proof. unfold submit_all. by rewrite foldl_app. Qed.

(** C1: in Live mode, after any sequence of send_frame calls the slot holds
    exactly the frame submitted last: the take that follows returns it and
    leaves the slot empty, so that no earlier frame of the sequence can be
    taken; and the slot never holds more than one frame. *)
Theorem send_frame_drop_oldest (s : t) (fs : list Frame) (f : Frame) :
  send_test_pattern s = false ->
  single_slot s ->
  Queue.items (queue (submit_all (fs ++ [f]) s)) = [f] /\
  (exists s', take (submit_all (fs ++ [f]) s) = Some (f, s') /\
              Queue.items (queue s') = [] /\ take s' = None) /\
  (forall gs, (length (Queue.items (queue (submit_all gs s))) <= 1)%nat).
Proof.
  intros Hlive Hslot.
  destruct (submit_all_live fs s Hlive Hslot) as [Hlive' Hslot'].
  rewrite submit_all_snoc, send_frame_live by done.
  split; [done|]. split.
  - eexists. split; [reflexivity|]. by split.
  - intros gs. by destruct (submit_all_live gs s Hlive Hslot) as [_ [_ ?]].
Qed.

Lemma send_frame_drop_oldest_witness :
  let s := disable_test_pattern init in
  let a : Frame := [[(1, 2, 3)]] in
  let b : Frame := [[(4, 5, 6)]] in
  let c : Frame := [[(7, 8, 9)]] in
  Queue.items (queue (submit_all ([a; b] ++ [c]) s)) = [c] /\
  (exists s', take (submit_all ([a; b] ++ [c]) s) = Some (c, s') /\
              Queue.items (queue s') = [] /\ take s' = None) /\
  (forall gs, (length (Queue.items (queue (submit_all gs s))) <= 1)%nat).
Proof.
  intros s a b c.
  apply (send_frame_drop_oldest s [a; b] c); [reflexivity|].
  split; simpl; lia.
Defined.

(** The same holds when the sender loop takes the held frame in the middle
    of send_frame: line 121 then finds the queue empty, lines 123-124 pass,
    and the new frame is the one in the slot. *)
Lemma send_frame_racing_drop_oldest (f : Frame) (s : t) :
  send_test_pattern s = false -> single_slot s ->
  Queue.items (queue (fst (send_frame_racing f s))) = [f] /\
  (forall held, Queue.items (queue s) = [held] ->
                snd (send_frame_racing f s) = Some held).
Proof.
  intros Hlive [Hmax Hlen]. unfold send_frame_racing. rewrite Hlive.
  destruct s as [[m its] r fn fd tp res cam]; simpl in *; subst m.
  destruct its as [|x [|y its]]; simpl in *; [|split; congruence|lia].
  split; [done|]. intros held Hheld. discriminate Hheld.
Qed.

(** C2: while send_test_pattern is true, send_frame returns at line 114:
    any number of calls leaves the whole sender state, and with it the frame
    held in the slot, as it was. *)
Theorem send_frame_ignored_in_test_pattern_mode (s : t) (fs : list Frame) :
  send_test_pattern s = true ->
  submit_all fs s = s /\
  Queue.items (queue (submit_all fs s)) = Queue.items (queue s).
Proof.
  intros Hmode.
  assert (H : submit_all fs s = s).
  { induction fs as [|f fs IH]; [done|].
    simpl. replace (send_frame f s) with s; [exact IH|].
    unfold send_frame. by rewrite Hmode. }
  by rewrite H.
Qed.

Lemma send_frame_ignored_in_test_pattern_mode_witness :
  let held : Frame := [[(9, 9, 9)]] in
  let s := set_queue (Queue.mk 1 [held]) init in
  submit_all [[[(1, 2, 3)]]; [[(4, 5, 6)]]] s = s /\
  Queue.items (queue (submit_all [[[(1, 2, 3)]]; [[(4, 5, 6)]]] s))
  = Queue.items (queue s).
Proof.
  intros held s.
  apply (send_frame_ignored_in_test_pattern_mode s); reflexivity.
Defined.

Lemma run_iteration_test_pattern_state (cam_accepts : Frame -> bool) (s : t) :
  send_test_pattern s = true ->
  step_state (run_iteration cam_accepts s) = s.
Proof.
  intros Hmode. unfold run_iteration. rewrite Hmode.
  destruct (running s); simpl; [|done].
  destruct (virtual_cam s); [|done].
  by destruct (create_test_pattern _ _).
Qed.

Lemma relay_ops_test_pattern (cam_accepts : Frame -> bool)
    (ops : list RelayOp) (s : t) :
  send_test_pattern s = true -> relay_ops cam_accepts ops s = s.
Proof.
  intros Hmode. induction ops as [|[f|] ops IH]; simpl; [done| |].
  - unfold send_frame. by rewrite Hmode.
  - by rewrite run_iteration_test_pattern_state.
Qed.

(** C10: enable_test_pattern writes the flag and nothing else.  A frame
    submitted in Live mode and not taken is still in the slot after the
    switch, stays there through any interleaving of send_frame calls and
    passes of the sender loop in test-pattern mode, and is what the first
    pass of the sender loop takes and sends once disable_test_pattern has
    run. *)
Theorem enable_test_pattern_keeps_pending_frame
    (cam_accepts : Frame -> bool) (s : t) (cam : Camera) (f : Frame)
    (ops : list RelayOp) :
  send_test_pattern s = false ->
  single_slot s ->
  running s = true ->
  virtual_cam s = Some cam ->
  let s1 := send_frame f s in
  let s2 := enable_test_pattern s1 in
  let s3 := relay_ops cam_accepts ops s2 in
  let s4 := disable_test_pattern s3 in
  s2 = set_send_test_pattern true s1 /\
  Queue.items (queue s2) = [f] /\
  Queue.items (queue s3) = [f] /\
  take s4 = Some (f, set_queue (Queue.mk 1 []) s4) /\
  run_iteration cam_accepts s4
  = Continue (set_queue (Queue.mk 1 []) s4)
      (send_frame_to_virtual_cam cam_accepts f
       ++ [virtual_cam_frame_sent_signal f]).
Proof.
  intros Hlive Hslot Hrun Hcam s1 s2 s3 s4.
  assert (H1 : s1 = set_queue (Queue.mk 1 [f]) s)
    by (apply send_frame_live; done).
  assert (H2 : s2 = set_send_test_pattern true s1).
  { unfold s2, enable_test_pattern. rewrite H1. simpl. by rewrite Hlive. }
  assert (H3 : s3 = s2).
  { apply relay_ops_test_pattern. by rewrite H2. }
  assert (H4 : s4 = s1).
  { unfold s4, disable_test_pattern. rewrite H3, H2. simpl.
    rewrite H1. unfold set_send_test_pattern, set_queue. simpl.
    by rewrite Hlive. }
  split; [done|]. rewrite H3, H4, H2, H1. repeat split.
  unfold run_iteration. simpl. by rewrite Hrun, Hcam, Hlive.
Qed.

Lemma enable_test_pattern_keeps_pending_frame_witness :
  let cam := {| cam_width := 1920; cam_height := 1080;
                cam_fps := {| fps_n := 25; fps_d := 1 |} |} in
  let s := disable_test_pattern (set_virtual_cam (Some cam) init) in
  let f : Frame := [[(1, 2, 3)]] in
  let ops := [op_sender_pass; op_submit [[(4, 5, 6)]]; op_sender_pass] in
  let s4 := disable_test_pattern
              (relay_ops (fun _ => true) ops
                 (enable_test_pattern (send_frame f s))) in
  take s4 = Some (f, set_queue (Queue.mk 1 []) s4).
Proof.
  intros cam s f ops s4.
  apply (enable_test_pattern_keeps_pending_frame (fun _ => true) s cam f ops);
    try reflexivity.
  split; simpl; lia.
Defined.

End Relay.

(** ** The test pattern *)

Section TestPattern.

Import VirtualCamSendThread.

Ltac decide_cmp :=
  repeat match goal with
  | |- context [(?a <=? ?b)] =>
      first [ rewrite (proj2 (Z.leb_le a b)) by lia
            | rewrite (proj2 (Z.leb_gt a b)) by lia ]
  | |- context [(?a <? ?b)] =>
      first [ rewrite (proj2 (Z.ltb_lt a b)) by lia
            | rewrite (proj2 (Z.ltb_ge a b)) by lia ]
  end.

Lemma map_const_replicate (m : nat) (x color : Pixel) :
  map (fun _ => color) (replicate m x) = replicate m color.
Proof. induction m as [|m IH]; simpl; [done|by rewrite IH]. Qed.

Lemma np_zeros_ok (height width : Z) :
  0 <= height -> 0 <= width ->
  np_zeros height width = inr (black_frame height width).
Proof. intros Hh Hw. unfold np_zeros. by decide_cmp. Qed.

Lemma rows_colored_zeros (height width : Z) :
  rows_colored (Z.to_nat height) (Z.to_nat width) (fun _ => (0, 0, 0))
    (black_frame height width).
Proof.
  split; [apply length_replicate|].
  intros i Hi. by apply lookup_replicate_2.
Qed.

Lemma rows_colored_assign (n m : nat) (g : nat -> Pixel) (frame : Frame)
    (start stop : Z) (color : Pixel) :
  rows_colored n m g frame ->
  0 <= start <= Z.of_nat n -> 0 <= stop <= Z.of_nat n ->
  rows_colored n m
    (fun i => if (start <=? Z.of_nat i) && (Z.of_nat i <? stop)
              then color else g i)
    (assign_rows start stop color frame).
Proof.
  intros [Hlen Hrows] Hstart Hstop. unfold assign_rows, slice_bound.
  rewrite Hlen. decide_cmp. rewrite !Z.min_l by lia.
  split; [by rewrite length_imap|].
  intros i Hi. rewrite list_lookup_imap, (Hrows i Hi). simpl.
  destruct (_ && _); [|done]. by rewrite map_const_replicate.
Qed.

Lemma create_test_pattern_try_rows (width height : Z) :
  0 <= width -> 0 <= height ->
  exists frame,
    create_test_pattern_try width height = inr frame /\
    rows_colored (Z.to_nat height) (Z.to_nat width) (bar_color (height / 8))
                 frame.
Proof.
  intros Hw Hh. unfold create_test_pattern_try.
  rewrite np_zeros_ok by done.
  eexists. split; [reflexivity|].
  assert (Hdiv : 0 <= height / 8) by (apply Z.div_pos; lia).
  assert (Hmul : 8 * (height / 8) <= height)
    by (apply Z.mul_div_le; lia).
  set (bar_height := height / 8) in *.
  cbv [enumerate colors imap foldl fst snd compose].
  repeat (apply rows_colored_assign; [|lia|lia]).
  apply rows_colored_zeros.
Qed.

Lemma pixel_at_rows_colored (n m : nat) (g : nat -> Pixel) (frame : Frame)
    (r c : Z) :
  rows_colored n m g frame ->
  0 <= r < Z.of_nat n -> 0 <= c < Z.of_nat m ->
  pixel_at frame r c = Some (g (Z.to_nat r)).
Proof.
  intros [_ Hrows] Hr Hc. unfold pixel_at. decide_cmp. simpl.
  rewrite Hrows by lia. apply lookup_replicate_2. lia.
Qed.

Lemma has_shape_rows_colored (n m : nat) (g : nat -> Pixel) (frame : Frame) :
  rows_colored n m g frame -> has_shape frame (Z.of_nat n) (Z.of_nat m).
Proof.
  intros [Hlen Hrows]. split; [by rewrite Hlen|].
  apply Forall_lookup_2. intros i row Hi.
  assert (Hlt : (i < n)%nat) by (rewrite <- Hlen; by eapply lookup_lt_Some).
  rewrite (Hrows i Hlt) in Hi. injection Hi as <-.
  by rewrite length_replicate.
Qed.

Lemma rows_colored_black (n m : nat) (g : nat -> Pixel) (frame : Frame) :
  rows_colored n m g frame ->
  (forall i, (i < n)%nat -> g i = black) ->
  frame = replicate n (replicate m black).
Proof.
  intros [Hlen Hrows] Hg. apply list_eq. intros i.
  destruct (decide (i < n)%nat) as [Hi|Hi].
  - rewrite (Hrows i Hi), (Hg i Hi). symmetry. by apply lookup_replicate_2.
  - rewrite (proj2 (lookup_ge_None frame i)) by lia.
    symmetry. apply lookup_replicate_None. lia.
Qed.

(** C3: for a width and a height that are not negative, create_test_pattern
    returns a frame (it does not raise), the same frame at every call with
    these arguments; the frame has height rows of width pixels; with
    bar_height = height // 8, the rows from k * bar_height up to
    (k + 1) * bar_height carry the k-th of the colors white, yellow, cyan,
    green, magenta, red, blue, black, on every column; the rows that remain
    below the eighth bar are black like that bar; and a height under 8
    gives the all-black frame of the requested size. *)
Theorem create_test_pattern_color_bars (width height : Z) :
  0 <= width -> 0 <= height ->
  exists frame,
    create_test_pattern width height = inr frame /\
    (forall frame', create_test_pattern width height = inr frame' ->
                    frame' = frame) /\
    has_shape frame height width /\
    colors = [white; yellow; cyan; green; magenta; red; blue; black] /\
    (forall (k : nat) (color : Pixel) (r c : Z),
        colors !! k = Some color ->
        Z.of_nat k * (height / 8) <= r < (Z.of_nat k + 1) * (height / 8) ->
        0 <= c < width ->
        pixel_at frame r c = Some color) /\
    (forall r c : Z,
        8 * (height / 8) <= r < height -> 0 <= c < width ->
        pixel_at frame r c = Some black) /\
    (height < 8 -> frame = black_frame height width).
Proof.
  intros Hw Hh.
  destruct (create_test_pattern_try_rows width height Hw Hh)
    as (frame & Htry & Hrows).
  assert (Hdiv : 0 <= height / 8) by (apply Z.div_pos; lia).
  assert (Hmul : 8 * (height / 8) <= height) by (apply Z.mul_div_le; lia).
  exists frame. unfold create_test_pattern. rewrite Htry.
  split; [done|]. split; [congruence|]. split.
  { rewrite <- (Z2Nat.id height), <- (Z2Nat.id width) by done.
    by eapply has_shape_rows_colored. }
  split; [done|]. split; [|split].
  - intros k color r c Hk Hr Hc.
    set (bar_height := height / 8) in *.
    do 8 (destruct k as [|k];
          [injection Hk as <-; simpl Z.of_nat in Hr;
           rewrite (pixel_at_rows_colored _ _ _ _ r c Hrows) by lia;
           f_equal; unfold bar_color; rewrite Z2Nat.id by lia;
           by decide_cmp|]).
    done.
  - intros r c Hr Hc.
    rewrite (pixel_at_rows_colored _ _ _ _ r c Hrows) by lia.
    f_equal. unfold bar_color. rewrite Z2Nat.id by lia.
    set (bar_height := height / 8) in *. by decide_cmp.
  - intros Hsmall. eapply rows_colored_black; [exact Hrows|].
    intros i Hi. unfold bar_color.
    rewrite (Z.div_small height 8) by lia. by decide_cmp.
Qed.

Lemma create_test_pattern_color_bars_witness :
  exists frame,
    create_test_pattern 1920 1080 = inr frame /\
    has_shape frame 1080 1920 /\
    pixel_at frame 200 1000 = Some yellow /\
    pixel_at frame 1079 0 = Some black.
Proof.
  destruct (create_test_pattern_color_bars 1920 1080)
    as (frame & Hcall & _ & Hshape & _ & Hbars & _); [lia|lia|].
  exists frame. split; [exact Hcall|]. split; [exact Hshape|]. split.
  - apply (Hbars 1%nat yellow 200 1000); [reflexivity| |lia].
    change (1080 / 8) with 135. lia.
  - apply (Hbars 7%nat black 1079 0); [reflexivity| |lia].
    change (1080 / 8) with 135. lia.
Defined.

(** For a negative size np.zeros raises in the try block and again in the
    handler of line 189, so that the exception leaves create_test_pattern. *)
Lemma create_test_pattern_negative (width height : Z) :
  width < 0 \/ height < 0 ->
  create_test_pattern width height = inl ValueError.
Proof.
  intros Hneg. unfold create_test_pattern, create_test_pattern_try, np_zeros.
  assert ((height <? 0) || (width <? 0) = true) as ->; [|done].
  apply orb_true_iff. rewrite !Z.ltb_lt. lia.
Qed.

(** send_frame_to_virtual_cam reads the pattern as BGR (line 94): what
    reaches the device has yellow and cyan, and red and blue, exchanged. *)
Lemma test_pattern_colors_on_device :
  map swap_channels colors
  = [white; cyan; yellow; green; magenta; blue; red; black].
Proof. reflexivity. Qed.

End TestPattern.

(** ** Opening the virtual camera *)

Section Camera.

Import VirtualCamSendThread.

Lemma set_frame_rate_open (camera_opens : bool) (n d : Z) (s : t)
    (cam : Camera) :
  virtual_cam s = Some cam ->
  state_of (set_frame_rate camera_opens n d s) = set_frame_rate_fields n d s.
Proof.
  intros Hcam. unfold set_frame_rate.
  destruct (d =? 0); [done|]. simpl. by rewrite Hcam.
Qed.

(** C6: set_frame_rate opens the device only when none is open.  The first
    call opens it with the test pattern resolution and the rate of the
    call; every later call, whatever its rate, finds virtual_cam set and
    leaves the device with its width, height and fps, as well as the slot,
    the mode and the running flag, as they were.  (Lines 135-136 still
    record the numbers of the call in frame_rate_n and frame_rate_d.) *)
Theorem set_frame_rate_opens_once (camera_opens : bool) (s : t)
    (cam : Camera) (rates : list (Z * Z)) :
  virtual_cam s = Some cam ->
  let s' := set_frame_rate_all camera_opens rates s in
  virtual_cam s' = Some cam /\
  queue s' = queue s /\
  running s' = running s /\
  send_test_pattern s' = send_test_pattern s /\
  test_pattern_resolution s' = test_pattern_resolution s.
Proof.
  revert s. induction rates as [|[n d] rates IH]; intros s Hcam; [done|].
  simpl. rewrite (set_frame_rate_open _ _ _ _ cam Hcam).
  destruct (IH (set_frame_rate_fields n d s)) as (H1 & H2 & H3 & H4 & H5);
    [done|].
  unfold set_frame_rate_all in *. by rewrite H1, H2, H3, H4, H5.
Qed.

Lemma set_frame_rate_opens_once_witness :
  let s := state_of (set_frame_rate true 25 1 init) in
  virtual_cam s
  = Some {| cam_width := 1920; cam_height := 1080;
            cam_fps := {| fps_n := 25; fps_d := 1 |} |} /\
  virtual_cam (set_frame_rate_all true [(30, 1); (60, 1)] s) = virtual_cam s.
Proof.
  intros s. split; [reflexivity|].
  apply (set_frame_rate_opens_once true s
           {| cam_width := 1920; cam_height := 1080;
              cam_fps := {| fps_n := 25; fps_d := 1 |} |}
           [(30, 1); (60, 1)]).
  reflexivity.
Defined.

(** The first call opens the device, when the device can be opened. *)
Lemma set_frame_rate_first_call (n d : Z) (s : t) :
  virtual_cam s = None -> d <> 0 ->
  virtual_cam (state_of (set_frame_rate true n d s))
  = Some {| cam_width := fst (test_pattern_resolution s);
            cam_height := snd (test_pattern_resolution s);
            cam_fps := {| fps_n := n; fps_d := d |} |}.
Proof.
  intros Hcam Hd. unfold set_frame_rate.
  rewrite (proj2 (Z.eqb_neq d 0)) by done. simpl. by rewrite Hcam.
Qed.

End Camera.

(** ** Reconnection with exponential backoff *)

Section Backoff.

Import VideoThread.

Lemma backoff_double (i : nat) :
  Z.min (Z.min (2 ^ Z.of_nat i) 32 * 2) 32 = Z.min (2 ^ Z.of_nat (S i)) 32.
Proof.
  rewrite Nat2Z.inj_succ, Z.pow_succ_r by lia.
  assert (0 < 2 ^ Z.of_nat i) by (apply Z.pow_pos_nonneg; lia). lia.
Qed.

Lemma connect_stream_open_raises (env : Env) (w : t) (e : Exn) :
  av_open env (opens w) = open_raises e ->
  connect_stream env w
  = connect_failed (set_opens (S (opens w)) (set_container None w)).
Proof. intros Hopen. unfold connect_stream. simpl. by rewrite Hopen. Qed.

(** One doubling per failed attempt: while av.open keeps raising and nobody
    stops the thread, [fuel] passes of the loop of attempt_reconnection
    announce the waits min(2^i, 32), ..., and leave current_wait at
    min(2^(i + fuel), 32); the sender thread is not touched. *)
Lemma attempt_reconnection_unreachable (env : Env) (fuel : nat) :
  unreachable env -> stop_at env = None ->
  forall (i : nat) (w : t),
    in_backoff w -> max_wait w = 32 ->
    current_wait w = Z.min (2 ^ Z.of_nat i) 32 ->
    exists w',
      attempt_reconnection fuel env w = Pending w' /\
      trace w' = trace w ++ backoff_signals i fuel /\
      current_wait w' = Z.min (2 ^ Z.of_nat (i + fuel)) 32 /\
      virtual_cam_send_thread w' = virtual_cam_send_thread w /\
      clock w <= clock w'.
Proof.
  intros Hsrc Hstop. induction fuel as [|fuel IH]; intros i w Hin Hmax Hwait.
  - destruct Hin as (Hrun & Hre & Hing). exists w. simpl.
    rewrite Hrun, Hre, Hing. simpl. rewrite app_nil_r, Nat.add_0_r.
    repeat split; [done|lia].
  - destruct Hin as (Hrun & Hre & Hing).
    destruct (Hsrc (opens w)) as [e He].
    destruct w as [snd run est cont re ing iw mw cw clk ops tr].
    simpl in *. subst run re ing mw cw.
    unfold elapse. rewrite Hstop. simpl.
    rewrite (connect_stream_open_raises env _ e) by exact He. simpl.
    rewrite backoff_double.
    edestruct (IH (S i)) as (w' & Hrun' & Htr & Hcw & Hsnd & Hclk);
      [| | |exists w'; split; [exact Hrun'|]]; try done.
    simpl in *. rewrite Htr, Hcw, Hsnd, <- app_assoc.
    replace (i + S fuel)%nat with (S i + fuel)%nat by lia.
    repeat split; try done.
    assert (0 < 2 ^ Z.of_nat i) by (apply Z.pow_pos_nonneg; lia). lia.
Qed.

End Backoff.

Section Unreachable.

Import VideoThread.

Lemma run_steps_no_camera (cam_accepts : Frame -> bool) (n : nat)
    (s : VirtualCamSendThread.t) :
  VirtualCamSendThread.running s = true ->
  VirtualCamSendThread.virtual_cam s = None ->
  VirtualCamSendThread.run_steps cam_accepts n s = (s, replicate n sleep_tenth).
Proof.
  intros Hrun Hcam. induction n as [|n IH]; [done|].
  simpl. unfold VirtualCamSendThread.run_iteration.
  rewrite Hrun, Hcam. simpl. by rewrite IH.
Qed.

Lemma run_first_connect_fails (env : Env) (fuel : nat) (w : t) (e : Exn) :
  running w = true -> is_reconnecting w = false ->
  av_open env (opens w) = open_raises e ->
  run (S fuel) env w
  = match attempt_reconnection fuel env
            (connect_lost (connect_stream env w)) with
    | Pending w' => Pending w'
    | Finished w' => run fuel env (finally w')
    end.
Proof.
  intros Hrun Hing Hopen. cbn [run]. rewrite Hrun.
  rewrite (connect_stream_open_raises env w e Hopen). simpl.
  by rewrite Hing.
Qed.

(** The waits of the backoff in closed form: the thread starts with
    current_wait = 1, and [n] failed reconnection attempts in a row leave it
    at min(2^n, 32). *)
Lemma current_wait_after_failures (env : Env) (n : nat) :
  unreachable env -> stop_at env = None ->
  current_wait start = 1 /\
  exists w,
    run (S n) env start = Pending w /\
    current_wait w = Z.min (2 ^ Z.of_nat n) 32.
Proof.
  intros Hsrc Hstop. split; [done|].
  destruct (Hsrc O) as [e He].
  destruct (attempt_reconnection_unreachable env n Hsrc Hstop O
              (connect_lost (connect_stream env start)))
    as (w & Hw & _ & Hcw & _);
    [by rewrite (connect_stream_open_raises env start e He)..|].
  exists w. split; [|exact Hcw].
  rewrite (run_first_connect_fails env n start e) by done. by rewrite Hw.
Qed.

(** C5 (amended): when no av.open succeeds and nobody stops the thread, the
    observer receives connection_lost and then the reconnection attempts
    with the waits 1, 2, 4, 8, 16, 32, 32, ...; the video thread is still in
    this sequence after any number of attempts.  set_frame_rate is not
    called in this period, so the virtual camera is not open, and every pass
    of the sender loop sleeps a tenth of a second and hands no frame to the
    device. *)
Theorem unreachable_source_backoff_and_idle_sender (env : Env) (fuel : nat) :
  unreachable env -> stop_at env = None ->
  exists w,
    run (S fuel) env start = Pending w /\
    trace w = connection_lost_signal :: backoff_signals 0 fuel /\
    VirtualCamSendThread.virtual_cam (virtual_cam_send_thread w) = None /\
    forall (cam_accepts : Frame -> bool) (n : nat),
      VirtualCamSendThread.run_steps cam_accepts n (virtual_cam_send_thread w)
      = (virtual_cam_send_thread w, replicate n sleep_tenth).
Proof.
  intros Hsrc Hstop.
  destruct (Hsrc O) as [e He].
  destruct (attempt_reconnection_unreachable env fuel Hsrc Hstop O
              (connect_lost (connect_stream env start)))
    as (w & Hw & Htr & _ & Hsnd & _);
    [by rewrite (connect_stream_open_raises env start e He)..|].
  rewrite (connect_stream_open_raises env start e He) in Htr, Hsnd.
  exists w. split.
  { rewrite (run_first_connect_fails env fuel start e) by done.
    by rewrite Hw. }
  split; [exact Htr|]. rewrite Hsnd. split; [done|].
  intros cam_accepts n. by apply run_steps_no_camera.
Qed.

Lemma unreachable_source_backoff_and_idle_sender_witness :
  exists w,
    run 8 never_opens start = Pending w /\
    trace w
    = [connection_lost_signal;
       reconnection_attempt_signal 1; reconnection_attempt_signal 2;
       reconnection_attempt_signal 4; reconnection_attempt_signal 8;
       reconnection_attempt_signal 16; reconnection_attempt_signal 32;
       reconnection_attempt_signal 32].
Proof.
  destruct (unreachable_source_backoff_and_idle_sender never_opens 7)
    as (w & Hrun & Htr & _).
  - intros k. by exists AVError.
  - reflexivity.
  - exists w. split; [exact Hrun|exact Htr].
Defined.

(** C5, as claimed, fails: on an address that cannot be reached the sender
    thread hands no frame to the device. *)
Lemma sender_silent_before_first_connection : ~ sink_never_silent.
Proof.
  intros Hclaim. apply (Hclaim 8%nat 25%nat); [lia|].
  vm_compute. reflexivity.
Qed.

(** C4: the wait is not back at 1 after the reconnection of line 359 has
    succeeded.  The av.open of line 231 and three reconnection attempts
    fail (waits 1, 2, 4), the attempt after the wait of 8 succeeds and
    connection_established is emitted, with current_wait still 8; the
    connection is closed by the finally clause, the av.open of line 231
    fails, and the reconnection that follows announces 8, 16, 32 seconds
    where a wait reset by the success would give 1, 2, 4. *)
Theorem current_wait_kept_after_reconnection :
  exists w,
    run 5 opens_once start = Pending w /\
    trace w
    = [connection_lost_signal;
       reconnection_attempt_signal 1; reconnection_attempt_signal 2;
       reconnection_attempt_signal 4; reconnection_attempt_signal 8;
       call_set_frame_rate 25 1; connection_established_signal;
       connection_lost_signal;
       reconnection_attempt_signal 8; reconnection_attempt_signal 16;
       reconnection_attempt_signal 32].
Proof. eexists. split; vm_compute; reflexivity. Qed.

End Unreachable.

(** ** Stop *)

Section Stop.

Import VideoThread.

Lemma run_not_running (fuel : nat) (env : Env) (w : t) :
  running w = false -> run fuel env w = Finished w.
Proof. intros Hrun. destruct fuel; simpl; by rewrite Hrun. Qed.

Lemma attempt_reconnection_not_running (fuel : nat) (env : Env) (w : t) :
  running w = false -> attempt_reconnection fuel env w = Finished w.
Proof. intros Hrun. destruct fuel; simpl; by rewrite Hrun. Qed.

(** stop called while the thread is between two passes of a loop: the
    thread leaves run at the next test of running, without a connection
    attempt, and the clean up closes the container. *)
Lemma stop_between_passes (fuel : nat) (env : Env) (w : t) :
  stop fuel env w = Some (stop_cleanup (stop_request w)) /\
  container (stop_cleanup (stop_request w)) = None /\
  trace (stop_cleanup (stop_request w)) = trace w /\
  opens (stop_cleanup (stop_request w)) = opens w.
Proof. unfold stop. by rewrite run_not_running. Qed.

(** C7 (amended): a stop that falls inside a backoff sleep is seen by the
    thread when time.sleep returns, current_wait seconds after the sleep
    began: the sleep is not cut short.  The thread then leaves
    attempt_reconnection and run without another av.open; the clean up of
    stop leaves no container, clears should_reconnect and is_reconnecting,
    and from the state it leaves neither attempt_reconnection nor run does
    anything. *)
Theorem stop_seen_after_backoff_sleep (env : Env) (fuel : nat) (w : t)
    (s : Z) :
  in_backoff w ->
  stop_at env = Some s ->
  clock w < s <= clock w + current_wait w ->
  exists w',
    attempt_reconnection (S fuel) env w = Finished w' /\
    clock w' = clock w + current_wait w /\
    opens w' = opens w /\
    trace w' = trace w ++ [reconnection_attempt_signal (current_wait w)] /\
    running w' = false /\
    run fuel env (finally w') = Finished (finally w') /\
    container (stop_cleanup (finally w')) = None /\
    should_reconnect (stop_cleanup (finally w')) = false /\
    is_reconnecting (stop_cleanup (finally w')) = false /\
    forall (fuel' : nat) (env' : Env),
      attempt_reconnection fuel' env' (stop_cleanup (finally w'))
      = Finished (stop_cleanup (finally w')) /\
      run fuel' env' (stop_cleanup (finally w'))
      = Finished (stop_cleanup (finally w')).
Proof.
  intros (Hrun & Hre & Hing) Hstop Hs.
  destruct w as [snd run est cont re ing iw mw cw clk ops tr].
  simpl in *. subst run re ing.
  unfold elapse. rewrite Hstop. simpl.
  rewrite (proj2 (Z.leb_le s (clk + cw))) by lia. simpl.
  eexists. split; [reflexivity|]. simpl.
  repeat split; try done.
  - by apply run_not_running.
  - by apply attempt_reconnection_not_running.
  - by apply run_not_running.
Qed.

Lemma stop_seen_after_backoff_sleep_witness :
  exists w',
    attempt_reconnection 1 stopped_at_32
      (world_of (run 6 never_opens start)) = Finished w' /\
    clock w' = 31 + 32 /\
    opens w' = 6%nat.
Proof.
  destruct (stop_seen_after_backoff_sleep stopped_at_32 0
              (world_of (run 6 never_opens start)) 32)
    as (w' & Hrun & Hclock & Hopens & _).
  - by vm_compute.
  - reflexivity.
  - vm_compute. split; [reflexivity|discriminate].
  - exists w'. split; [exact Hrun|]. split; [exact Hclock|exact Hopens].
Defined.

(** C7, as claimed, fails: with stop called at second 32, one second into
    the sleep of 32 seconds that began at second 31, the thread goes on at
    second 63. *)
Lemma stop_does_not_abort_backoff_sleep : ~ stop_aborts_backoff_sleep.
Proof.
  intros Hclaim.
  specialize (Hclaim stopped_at_32 O
                (world_of (run 6 never_opens start))
                (world_of (attempt_reconnection 1 stopped_at_32
                             (world_of (run 6 never_opens start))))
                32).
  vm_compute in Hclaim.
  assert (Hlt : Lt = Lt) by reflexivity.
  specialize (Hclaim (conj eq_refl (conj eq_refl eq_refl)) eq_refl
                (conj Hlt Hlt) eq_refl).
  discriminate Hclaim.
Qed.

End Stop.

(** ** Connecting and reading *)

Section ReadLoop.

Import VideoThread.

Lemma resolve_rate_denominator (stream : Stream) :
  snd (resolve_rate stream) <> 0.
Proof.
  unfold resolve_rate. destruct (average_rate stream) as [r|]; [|done].
  by destruct (numerator r =? 0).
Qed.

Lemma connect_stream_opened (env : Env) (w : t) (c : Container)
    (stream : Stream) (streams : list Stream) :
  av_open env (opens w) = opened c ->
  streams_video c = stream :: streams ->
  let w' := connect_stream env w in
  connection_established w' = true /\
  container w' = Some c /\
  is_reconnecting w' = false /\
  trace w' = trace w ++ [call_set_frame_rate (fst (resolve_rate stream))
                                             (snd (resolve_rate stream));
                         connection_established_signal] /\
  VirtualCamSendThread.frame_rate_n (virtual_cam_send_thread w')
  = Some (fst (resolve_rate stream)) /\
  VirtualCamSendThread.frame_rate_d (virtual_cam_send_thread w')
  = Some (snd (resolve_rate stream)) /\
  VirtualCamSendThread.send_test_pattern (virtual_cam_send_thread w') = false /\
  running w' = running w /\
  should_reconnect w' = should_reconnect w /\
  initial_wait w' = initial_wait w.
Proof.
  intros Hopen Hstreams. unfold connect_stream. simpl.
  rewrite Hopen. simpl. rewrite Hstreams. simpl.
  unfold VirtualCamSendThread.set_frame_rate.
  rewrite (proj2 (Z.eqb_neq _ 0) (resolve_rate_denominator stream)).
  unfold VirtualCamSendThread.disable_test_pattern, emit.
  destruct (virtual_cam_send_thread w) as [q r fn fd tp res [cam|]];
    destruct (camera_opens env), tp; simpl;
    rewrite <- ?app_assoc; by repeat split.
Qed.

Lemma connect_stream_trace_extends (env : Env) (w : t) :
  exists rest, trace (connect_stream env w) = trace w ++ rest.
Proof.
  unfold connect_stream. simpl.
  destruct (av_open env (opens w)) as [e|c]; simpl;
    [exists []; by rewrite app_nil_r|].
  destruct (streams_video c) as [|stream streams]; simpl;
    [exists []; by rewrite app_nil_r|].
  destruct (VirtualCamSendThread.set_frame_rate _ _ _ _); simpl.
  - eexists. by rewrite <- app_assoc.
  - by eexists.
Qed.

Lemma attempt_reconnection_trace_extends (env : Env) (fuel : nat) (w : t) :
  exists rest,
    trace (world_of (attempt_reconnection fuel env w)) = trace w ++ rest.
Proof.
  revert w. induction fuel as [|fuel IH]; intros w; simpl.
  - exists []. rewrite app_nil_r. by destruct (_ && _).
  - destruct (running w && should_reconnect w && is_reconnecting w);
      [|exists []; by rewrite app_nil_r].
    set (w1 := elapse env _ _).
    assert (Hw1 : trace w1
                  = trace w ++ [reconnection_attempt_signal (current_wait w)]).
    { unfold w1, elapse. simpl. destruct (stop_at env) as [s|]; [|done].
      by destruct (s <=? _). }
    destruct (running w1); simpl; [|].
    + destruct (connect_stream_trace_extends env w1) as [rest1 Hc].
      destruct (connection_established (connect_stream env w1)); simpl.
      * exists ([reconnection_attempt_signal (current_wait w)] ++ rest1).
        by rewrite Hc, Hw1, <- app_assoc.
      * destruct (IH (set_current_wait
                        (Z.min (current_wait (connect_stream env w1) * 2)
                               (max_wait (connect_stream env w1)))
                        (connect_stream env w1))) as [rest2 Hrest2].
        exists ([reconnection_attempt_signal (current_wait w)]
                ++ rest1 ++ rest2).
        rewrite Hrest2. simpl. by rewrite Hc, Hw1, <- !app_assoc.
    + eexists. exact Hw1.
Qed.

(** The first thing the loop of attempt_reconnection does is to announce
    the current wait. *)
Lemma attempt_reconnection_announces (env : Env) (fuel : nat) (w : t) :
  in_backoff w ->
  exists rest,
    trace (world_of (attempt_reconnection (S fuel) env w))
    = trace w ++ reconnection_attempt_signal (current_wait w) :: rest.
Proof.
  intros (Hrun & Hre & Hing). simpl. rewrite Hrun, Hre, Hing. simpl.
  set (w1 := elapse env _ _).
  assert (Hw1 : trace w1
                = trace w ++ [reconnection_attempt_signal (current_wait w)]).
  { unfold w1, elapse. simpl. destruct (stop_at env) as [s|]; [|done].
    by destruct (s <=? _). }
  destruct (running w1); simpl; [|by exists []].
  destruct (connect_stream_trace_extends env w1) as [rest1 Hc].
  destruct (connection_established (connect_stream env w1)); simpl.
  - exists rest1. by rewrite Hc, Hw1, <- app_assoc.
  - destruct (attempt_reconnection_trace_extends env fuel
                (set_current_wait
                   (Z.min (current_wait (connect_stream env w1) * 2)
                          (max_wait (connect_stream env w1)))
                   (connect_stream env w1))) as [rest2 Hrest2].
    exists (rest1 ++ rest2).
    rewrite Hrest2. simpl. by rewrite Hc, Hw1, <- !app_assoc.
Qed.

Lemma decode_loop_frame_events (frames : list (option Frame)) (w : t) :
  exists evs,
    trace (decode_loop frames w) = trace w ++ evs /\
    forallb is_frame_event evs = true.
Proof.
  revert w. induction frames as [|[img|] frames IH]; intros w; simpl.
  - exists []. by rewrite app_nil_r.
  - destruct (running w); simpl; [|exists []; by rewrite app_nil_r].
    edestruct IH as (evs & Hevs & Hall). rewrite Hevs. simpl.
    exists (forward_events img ++ evs).
    split; [by rewrite <- !app_assoc|done].
  - destruct (running w); simpl; [apply IH|exists []; by rewrite app_nil_r].
Qed.

Lemma demux_loop_frame_events (env : Env) (packets : list Packet)
    (generator_end : option Exn) (w : t) :
  exists evs,
    trace (state_of (demux_loop env packets generator_end w))
    = trace w ++ evs /\
    forallb is_frame_event evs = true.
Proof.
  revert w. induction packets as [|packet packets IH]; intros w; simpl.
  - exists []. rewrite app_nil_r. by destruct generator_end.
  - set (w1 := elapse env _ _).
    assert (Hw1 : trace w1 = trace w).
    { unfold w1, elapse. simpl. destruct (stop_at env) as [s|]; [|done].
      by destruct (s <=? _). }
    rewrite <- Hw1.
    destruct (running w1); simpl; [|exists []; by rewrite app_nil_r].
    destruct (dts packet); [|apply IH].
    destruct (decode packet) as [e|frames]; simpl;
      [exists []; by rewrite app_nil_r|].
    destruct (decode_loop_frame_events frames w1) as (evs1 & H1 & Hall1).
    destruct (IH (decode_loop frames w1)) as (evs2 & H2 & Hall2).
    exists (evs1 ++ evs2). rewrite H2, H1, <- app_assoc.
    split; [done|]. rewrite forallb_app. by rewrite Hall1, Hall2.
Qed.

(** C8: when av.open succeeds on a source with a video stream,
    connect_stream resolves the rate to the advertised average rate, or to
    25/1 when the stream gives none; it calls set_frame_rate with it once,
    before connection_established is emitted; and everything the read loop
    of this connection adds to the trace afterwards is the forwarding of a
    frame, so that the one report comes before every frame. *)
Theorem connect_stream_reports_rate_once (env : Env) (w : t) (c : Container)
    (stream : Stream) (streams : list Stream) :
  av_open env (opens w) = opened c ->
  streams_video c = stream :: streams ->
  let w' := connect_stream env w in
  let n := fst (resolve_rate stream) in
  let d := snd (resolve_rate stream) in
  (average_rate stream = None -> (n, d) = (25, 1)) /\
  (forall r, average_rate stream = Some r -> numerator r <> 0 ->
             (n, d) = (numerator r, Zpos (denominator r))) /\
  connection_established w' = true /\
  trace w' = trace w ++ [call_set_frame_rate n d;
                         connection_established_signal] /\
  VirtualCamSendThread.frame_rate_n (virtual_cam_send_thread w') = Some n /\
  VirtualCamSendThread.frame_rate_d (virtual_cam_send_thread w') = Some d /\
  exists frame_events,
    trace (state_of (read_stream env w'))
    = trace w ++ [call_set_frame_rate n d; connection_established_signal]
              ++ frame_events /\
    forallb is_frame_event frame_events = true.
Proof.
  intros Hopen Hstreams w' n d.
  destruct (connect_stream_opened env w c stream streams Hopen Hstreams)
    as (Hest & Hcont & _ & Htr & Hn & Hd & _).
  fold w' in Hest, Hcont, Htr, Hn, Hd.
  split; [|split].
  - intros Hnone. unfold n, d, resolve_rate. by rewrite Hnone.
  - intros r Hr Hnum. unfold n, d, resolve_rate. rewrite Hr.
    by rewrite (proj2 (Z.eqb_neq _ 0) Hnum).
  - repeat (split; [done|]).
    unfold read_stream. simpl. rewrite Hcont.
    destruct (demux_loop_frame_events env (demux c) (demux_end c)
                (set_current_wait (initial_wait w') w'))
      as (evs & Hevs & Hall).
    exists evs. split; [|done].
    rewrite Hevs. simpl. by rewrite Htr, <- app_assoc.
Qed.

Lemma connect_stream_reports_rate_once_witness :
  let rate := {| numerator := 30; denominator := 1 |} in
  let img : Frame := [[(1, 2, 3)]] in
  let c := {| streams_video := [ {| average_rate := Some rate |} ];
              demux := [ {| arrives_after := 0; dts := Some 0;
                            decode := inr [Some img] |} ];
              demux_end := Some AVError |} in
  let env := {| av_open := fun _ => opened c; camera_opens := true;
                stop_at := None |} in
  trace (connect_stream env start)
  = [call_set_frame_rate 30 1; connection_established_signal] /\
  trace (state_of (read_stream env (connect_stream env start)))
  = [call_set_frame_rate 30 1; connection_established_signal;
     frame_ready_signal img; call_send_frame img;
     virtual_cam_frame_ready_signal img].
Proof.
  intros rate img c env.
  destruct (connect_stream_reports_rate_once env start c
              {| average_rate := Some rate |} [] eq_refl eq_refl)
    as (_ & _ & _ & Htr & _ & _ & _).
  split; [exact Htr|]. vm_compute. reflexivity.
Defined.

End ReadLoop.

Section Forwarding.

Import VideoThread.

Lemma same_thread_flags_refl (w : t) : same_thread_flags w w.
Proof. by repeat split. Qed.

Lemma same_thread_flags_trans (w1 w2 w3 : t) :
  same_thread_flags w1 w2 -> same_thread_flags w2 w3 ->
  same_thread_flags w1 w3.
Proof.
  unfold same_thread_flags. intros H12 H23.
  destruct H12 as (?&?&?&?&?&?&?&?&?), H23 as (?&?&?&?&?&?&?&?&?).
  repeat split; congruence.
Qed.

Lemma elapse_no_stop (env : Env) (d : Z) (w : t) :
  stop_at env = None -> elapse env d w = set_clock (clock w + d) w.
Proof. intros Hstop. unfold elapse. by rewrite Hstop. Qed.

Lemma decode_loop_forwards (frames : list (option Frame)) (w : t) :
  running w = true ->
  trace (decode_loop frames w)
  = trace w ++ flat_map forward_events (omap id frames) /\
  virtual_cam_send_thread (decode_loop frames w)
  = submit_all (omap id frames) (virtual_cam_send_thread w) /\
  same_thread_flags w (decode_loop frames w).
Proof.
  revert w. induction frames as [|[img|] frames IH]; intros w Hrun; simpl.
  - rewrite app_nil_r. split; [done|]. split; [done|].
    apply same_thread_flags_refl.
  - rewrite Hrun. simpl.
    edestruct IH as (Htr & Hsnd & Hflags); [|rewrite Htr, Hsnd]; [done|].
    simpl. rewrite <- !app_assoc. split; [done|]. split; [done|].
    eapply same_thread_flags_trans; [|exact Hflags]. by repeat split.
  - rewrite Hrun. simpl. by apply IH.
Qed.

Lemma demux_loop_forwards (env : Env) (packets : list Packet)
    (generator_end : option Exn) (w : t) :
  stop_at env = None -> running w = true ->
  raised (demux_loop env packets generator_end w)
  = read_error packets generator_end /\
  trace (state_of (demux_loop env packets generator_end w))
  = trace w ++ flat_map forward_events (valid_frames packets) /\
  virtual_cam_send_thread (state_of (demux_loop env packets generator_end w))
  = submit_all (valid_frames packets) (virtual_cam_send_thread w) /\
  same_thread_flags w (state_of (demux_loop env packets generator_end w)).
Proof.
  intros Hstop. revert w.
  induction packets as [|packet packets IH]; intros w Hrun; simpl.
  - rewrite app_nil_r.
    destruct generator_end; simpl; repeat split; done.
  - rewrite (elapse_no_stop env _ w Hstop). simpl. rewrite Hrun. simpl.
    set (w1 := set_clock _ w).
    assert (Hflags1 : same_thread_flags w w1) by (by repeat split).
    destruct (dts packet).
    + destruct (decode packet) as [e|frames]; simpl.
      * rewrite app_nil_r. by repeat split.
      * destruct (decode_loop_forwards frames w1 Hrun) as (Htr & Hsnd & Hfl).
        destruct (IH (decode_loop frames w1)) as (Hr & Htr' & Hsnd' & Hfl').
        { destruct Hfl as (-> & _). exact Hrun. }
        rewrite Hr, Htr', Hsnd', Htr, Hsnd.
        rewrite flat_map_app, <- app_assoc.
        unfold submit_all. rewrite foldl_app.
        repeat (split; [done|]).
        eapply same_thread_flags_trans; [exact Hflags1|].
        eapply same_thread_flags_trans; [exact Hfl|exact Hfl'].
    + destruct (IH w1 Hrun) as (Hr & Htr & Hsnd & Hfl).
      repeat (split; [done|]).
      eapply same_thread_flags_trans; [exact Hflags1|exact Hfl].
Qed.

Lemma enable_test_pattern_mode (s : VirtualCamSendThread.t) :
  VirtualCamSendThread.send_test_pattern
    (VirtualCamSendThread.enable_test_pattern s) = true.
Proof.
  unfold VirtualCamSendThread.enable_test_pattern.
  by destruct (VirtualCamSendThread.send_test_pattern s) eqn:Hmode.
Qed.

(** C9: on a connection that nobody stops, the read loop forwards every
    frame of every packet that has a dts, None entries left out, up to the
    first exception: each one is emitted with frame_ready, handed to
    send_frame and emitted with virtual_cam_frame_ready, in the order of
    the stream; packets without a dts and None entries add nothing and
    raise nothing.  An exception of demux or decode, whatever its class, is
    caught by run: handle_disconnection emits connection_lost, switches
    the sender to the test pattern and enters the reconnection loop, which
    announces the first wait; run goes on from the state this leaves. *)
Theorem read_loop_forwards_and_absorbs (env : Env) (fuel : nat) (w0 : t)
    (c : Container) (stream : Stream) (streams : list Stream) :
  stop_at env = None ->
  running w0 = true ->
  should_reconnect w0 = true ->
  av_open env (opens w0) = opened c ->
  streams_video c = stream :: streams ->
  let w := connect_stream env w0 in
  let r := read_stream env w in
  let frames := valid_frames (demux c) in
  trace (state_of r) = trace w ++ flat_map forward_events frames /\
  virtual_cam_send_thread (state_of r)
  = submit_all frames (virtual_cam_send_thread w) /\
  raised r = read_error (demux c) (demux_end c) /\
  (raised r = None ->
   run (S (S fuel)) env w0 = run (S fuel) env (finally (state_of r))) /\
  (forall e, raised r = Some e ->
     exists (w1 : t) (rest : list Event),
       handle_disconnection_locked (state_of r) = (w1, false) /\
       in_backoff w1 /\
       connection_established w1 = false /\
       VirtualCamSendThread.send_test_pattern (virtual_cam_send_thread w1)
       = true /\
       trace (world_of (handle_disconnection (S fuel) env (state_of r)))
       = trace (state_of r)
         ++ [connection_lost_signal;
             reconnection_attempt_signal (initial_wait w0)] ++ rest /\
       run (S (S fuel)) env w0
       = match handle_disconnection (S fuel) env (state_of r) with
         | Pending w'' => Pending w''
         | Finished w'' => run (S fuel) env (finally w'')
         end).
Proof.
  intros Hstop Hrun0 Hre0 Hopen Hstreams w r frames.
  destruct (connect_stream_opened env w0 c stream streams Hopen Hstreams)
    as (Hest & Hcont & Hing & _ & _ & _ & _ & Hrun & Hre & Hiw).
  fold w in Hest, Hcont, Hing, Hrun, Hre, Hiw.
  rewrite Hrun0 in Hrun. rewrite Hre0 in Hre.
  assert (Hr : r = demux_loop env (demux c) (demux_end c)
                     (set_current_wait (initial_wait w) w)).
  { unfold r, read_stream. simpl. by rewrite Hcont. }
  destruct (demux_loop_forwards env (demux c) (demux_end c)
              (set_current_wait (initial_wait w) w) Hstop Hrun)
    as (Hraised & Htr & Hsnd & Hflags).
  rewrite <- Hr in Hraised, Htr, Hsnd, Hflags. simpl in Htr, Hsnd.
  destruct Hflags as (Hf1 & Hf2 & _ & Hf4 & Hf5 & _ & _ & Hf8 & _).
  simpl in Hf1, Hf2, Hf4, Hf5, Hf8.
  assert (Hunfold : run (S (S fuel)) env w0
                    = match r with
                      | Ok w' => run (S fuel) env (finally w')
                      | Raise _ w' =>
                          match handle_disconnection (S fuel) env w' with
                          | Pending w'' => Pending w''
                          | Finished w'' => run (S fuel) env (finally w'')
                          end
                      end).
  { cbn [run]. rewrite Hrun0. fold w. by rewrite Hest. }
  repeat (split; [done|]). split.
  - intros Hnone. rewrite Hunfold. by destruct r.
  - intros e He.
    set (w1 := set_is_reconnecting true
                 (set_connection_established false
                    (set_sender (VirtualCamSendThread.enable_test_pattern
                                   (virtual_cam_send_thread (state_of r)))
                                (emit connection_lost_signal (state_of r))))).
    assert (Hlocked : handle_disconnection_locked (state_of r) = (w1, false)).
    { unfold handle_disconnection_locked. rewrite Hf2, Hest. simpl.
      by rewrite Hf5, Hing. }
    assert (Hback : in_backoff w1).
    { repeat split; simpl; [by rewrite Hf1|by rewrite Hf4]. }
    destruct (attempt_reconnection_announces env fuel w1 Hback)
      as [rest Hrest].
    exists w1, rest. split; [done|]. split; [done|]. split; [done|].
    split; [apply enable_test_pattern_mode|].
    assert (Hhd : handle_disconnection (S fuel) env (state_of r)
                  = attempt_reconnection (S fuel) env w1).
    { unfold handle_disconnection. rewrite Hlocked.
      replace (should_reconnect w1) with true; [done|].
      simpl. by rewrite Hf4. }
    split.
    + rewrite Hhd, Hrest. simpl. rewrite Hf8, Hiw. by rewrite <- app_assoc.
    + rewrite Hunfold. destruct r; [discriminate He|done].
Qed.

Lemma read_loop_forwards_and_absorbs_witness :
  let a : Frame := [[(1, 2, 3)]] in
  let b : Frame := [[(4, 5, 6)]] in
  let c := {| streams_video := [ {| average_rate := None |} ];
              demux := [ {| arrives_after := 0; dts := None;
                            decode := inr [Some b] |};
                         {| arrives_after := 0; dts := Some 7;
                            decode := inr [None; Some a] |};
                         {| arrives_after := 0; dts := Some 8;
                            decode := inl AVError |} ];
              demux_end := None |} in
  let env := {| av_open := fun k => match k with
                                    | O => opened c
                                    | _ => open_raises AVError
                                    end;
                camera_opens := true; stop_at := None |} in
  trace (state_of (read_stream env (connect_stream env start)))
  = trace (connect_stream env start) ++ forward_events a /\
  raised (read_stream env (connect_stream env start)) = Some AVError.
Proof.
  intros a b c env.
  destruct (read_loop_forwards_and_absorbs env 0 start c
              {| average_rate := None |} [] eq_refl eq_refl eq_refl
              eq_refl eq_refl)
    as (Htr & _ & Hraised & _).
  split; [exact Htr|exact Hraised].
Defined.

End Forwarding.

(** * Further properties of the code *)

(** ** The sender thread *)

Section SenderLoop.

Import VirtualCamSendThread.

Ltac settle_cmp :=
  repeat match goal with
  | |- context [(?a <=? ?b)] =>
      first [ rewrite (proj2 (Z.leb_le a b)) by lia
            | rewrite (proj2 (Z.leb_gt a b)) by lia ]
  | |- context [(?a <? ?b)] =>
      first [ rewrite (proj2 (Z.ltb_lt a b)) by lia
            | rewrite (proj2 (Z.ltb_ge a b)) by lia ]
  end.

Lemma send_frame_racing_drop_oldest_witness :
  let held : Frame := [[(1, 2, 3)]] in
  let f : Frame := [[(4, 5, 6)]] in
  let s := set_queue (Queue.mk 1 [held]) (disable_test_pattern init) in
  Queue.items (queue (fst (send_frame_racing f s))) = [f] /\
  snd (send_frame_racing f s) = Some held.
Proof.
  intros held f s.
  destruct (send_frame_racing_drop_oldest f s) as [Hslot Htaken].
  - reflexivity.
  - split; simpl; lia.
  - split; [exact Hslot|]. apply Htaken. reflexivity.
Defined.

Lemma frames_signalled_app (out1 out2 : list Event) :
  frames_signalled (out1 ++ out2)
  = frames_signalled out1 ++ frames_signalled out2.
Proof. apply omap_app. Qed.

Lemma frames_signalled_send (cam_accepts : Frame -> bool) (f : Frame) :
  frames_signalled (send_frame_to_virtual_cam cam_accepts f) = [].
Proof. unfold send_frame_to_virtual_cam. by destruct (cam_accepts _). Qed.

Lemma single_slot_cases (s : t) :
  single_slot s ->
  Queue.items (queue s) = [] \/ exists f, Queue.items (queue s) = [f].
Proof.
  intros [_ Hlen]. destruct (Queue.items (queue s)) as [|f [|g its]];
    simpl in Hlen; [by left|right; by exists f|lia].
Qed.

(** In Live mode the sender loop signals only frames that send_frame was
    given (or that the slot held at the start), in the order of submission
    and each at most once, however the calls of the video thread and the
    passes of the sender loop interleave. *)
Theorem relay_delivers_subsequence (cam_accepts : Frame -> bool)
    (alive : bool) (ops : list RelayOp) (s : t) :
  send_test_pattern s = false ->
  single_slot s ->
  sublist (frames_signalled (snd (relay_run cam_accepts alive ops s)))
          (Queue.items (queue s) ++ submitted ops).
Proof.
  revert alive s.
  induction ops as [|[f|] ops IH]; intros alive s Hlive Hslot.
  - simpl. apply sublist_nil_l.
  - simpl. specialize (IH alive (send_frame f s)).
    rewrite send_frame_live in IH by done. simpl in IH.
    rewrite send_frame_live by done.
    apply sublist_inserts_l. apply IH; [done|split; simpl; lia].
  - simpl. destruct alive; [|by apply IH].
    unfold run_iteration. rewrite Hlive.
    destruct (running s); simpl.
    + destruct (virtual_cam s); simpl.
      * unfold take, Queue.get, Queue.get_nowait.
        pose proof (IH true s Hlive Hslot) as IHs.
        destruct (single_slot_cases s Hslot) as [Hits|[f Hits]];
          rewrite Hits in *; simpl.
        -- exact IHs.
        -- clear IHs. rewrite frames_signalled_app, frames_signalled_app,
             frames_signalled_send. simpl.
           apply sublist_skip.
           apply (IH true (set_queue
                             {| Queue.maxsize := Queue.maxsize (queue s);
                                Queue.items := [] |} s)); [done|].
           destruct Hslot as [Hmax _]. split; simpl; [done|lia].
      * by apply IH.
    + rewrite frames_signalled_app.
      replace (frames_signalled _) with (@nil Frame)
        by (by destruct (virtual_cam s)).
      by apply IH.
Qed.

Lemma relay_delivers_subsequence_witness :
  let a : Frame := [[(1, 2, 3)]] in
  let b : Frame := [[(4, 5, 6)]] in
  let c : Frame := [[(7, 8, 9)]] in
  let cam := {| cam_width := 1; cam_height := 1;
                cam_fps := {| fps_n := 25; fps_d := 1 |} |} in
  let s := disable_test_pattern (set_virtual_cam (Some cam) init) in
  let ops := [op_submit a; op_submit b; op_sender_pass; op_sender_pass;
              op_submit c; op_sender_pass] in
  frames_signalled (snd (relay_run (fun _ => true) true ops s)) = [b; c] /\
  sublist (frames_signalled (snd (relay_run (fun _ => true) true ops s)))
          (Queue.items (queue s) ++ submitted ops).
Proof.
  intros a b c cam s ops. split; [reflexivity|].
  apply (relay_delivers_subsequence (fun _ => true) true ops s).
  - reflexivity.
  - split; simpl; lia.
Defined.

Lemma pixel_at_cvtColor (frame : Frame) (r c : Z) :
  pixel_at (cvtColor_BGR2RGB frame) r c = swap_channels <$> pixel_at frame r c.
Proof.
  unfold pixel_at, cvtColor_BGR2RGB.
  destruct ((r <? 0) || (c <? 0)); [done|].
  change (map (map swap_channels) frame)
    with (fmap (M := list) (fmap (M := list) swap_channels) frame).
  rewrite list_lookup_fmap.
  destruct (frame !! Z.to_nat r) as [row|]; simpl; [|done].
  apply list_lookup_fmap.
Qed.

(** In test-pattern mode, with a device that is open and takes the frames,
    every pass of the sender loop hands the same pattern to the device and
    calls sleep_until_next_frame twice, at line 100 and at line 67: [n]
    passes give [n] frames and [2 n] waits for the next frame, and leave
    the sender state as it was. *)
Theorem test_pattern_paced_twice (cam_accepts : Frame -> bool) (s : t)
    (cam : Camera) (n : nat) :
  running s = true ->
  virtual_cam s = Some cam ->
  send_test_pattern s = true ->
  0 <= fst (test_pattern_resolution s) ->
  0 <= snd (test_pattern_resolution s) ->
  (forall f, cam_accepts f = true) ->
  exists pattern,
    create_test_pattern (fst (test_pattern_resolution s))
                        (snd (test_pattern_resolution s)) = inr pattern /\
    run_steps cam_accepts n s
    = (s, concat (replicate n (test_pattern_pass pattern))).
Proof.
  intros Hrun Hcam Hmode Hw Hh Hacc.
  destruct (create_test_pattern_try_rows _ _ Hw Hh) as (pattern & Htry & _).
  assert (Hpat : create_test_pattern (fst (test_pattern_resolution s))
                                     (snd (test_pattern_resolution s))
                 = inr pattern).
  { unfold create_test_pattern. by rewrite Htry. }
  exists pattern. split; [exact Hpat|].
  induction n as [|n IH]; [done|].
  simpl. unfold run_iteration.
  rewrite Hrun, Hcam, Hmode, Hpat. simpl.
  unfold send_frame_to_virtual_cam. rewrite Hacc.
  by rewrite IH.
Qed.

Lemma test_pattern_paced_twice_witness :
  let cam := {| cam_width := 4; cam_height := 16;
                cam_fps := {| fps_n := 25; fps_d := 1 |} |} in
  let s := mk (Queue.create 1) true None None true (4, 16) (Some cam) in
  exists pattern,
    create_test_pattern 4 16 = inr pattern /\
    run_steps (fun _ => true) 3 s
    = (s, concat (replicate 3 (test_pattern_pass pattern))).
Proof.
  intros cam s.
  apply (test_pattern_paced_twice (fun _ => true) s cam 3);
    try reflexivity; simpl; lia.
Defined.

(** The pattern is built with the channel order of its comments (red
    first) and handed to the device through the BGR to RGB conversion of
    line 94: on the device the bars are white, cyan, yellow, green, magenta,
    blue, red, black, that is, the k-th bar has the k-th color with its
    first and third channel exchanged. *)
Theorem test_pattern_on_device_swapped (width height : Z) (k : nat)
    (color : Pixel) (r c : Z) :
  0 <= width -> 0 <= height ->
  colors !! k = Some color ->
  Z.of_nat k * (height / 8) <= r < (Z.of_nat k + 1) * (height / 8) ->
  0 <= c < width ->
  exists pattern,
    create_test_pattern width height = inr pattern /\
    send_frame_to_virtual_cam (fun _ => true) pattern
    = [cam_send (cvtColor_BGR2RGB pattern); cam_sleep_until_next_frame] /\
    pixel_at (cvtColor_BGR2RGB pattern) r c = Some (swap_channels color) /\
    map swap_channels colors
    = [white; cyan; yellow; green; magenta; blue; red; black].
Proof.
  intros Hw Hh Hk Hr Hc.
  destruct (create_test_pattern_try_rows width height Hw Hh)
    as (pattern & Htry & Hrows).
  assert (Hdiv : 0 <= height / 8) by (apply Z.div_pos; lia).
  assert (Hmul : 8 * (height / 8) <= height) by (apply Z.mul_div_le; lia).
  exists pattern. split; [unfold create_test_pattern; by rewrite Htry|].
  split; [done|]. split; [|done].
  rewrite pixel_at_cvtColor.
  set (bar_height := height / 8) in *.
  do 8 (destruct k as [|k];
        [injection Hk as <-; simpl Z.of_nat in Hr;
         rewrite (pixel_at_rows_colored _ _ _ _ r c Hrows) by lia;
         simpl; do 2 f_equal; unfold bar_color; rewrite Z2Nat.id by lia;
         by settle_cmp|]).
  done.
Qed.

Lemma test_pattern_on_device_swapped_witness :
  exists pattern,
    create_test_pattern 1920 1080 = inr pattern /\
    pixel_at (cvtColor_BGR2RGB pattern) 700 5 = Some blue.
Proof.
  destruct (test_pattern_on_device_swapped 1920 1080 5 red 700 5)
    as (pattern & Hpat & _ & Hpix & _); try reflexivity; try lia.
  - change (1080 / 8) with 135. lia.
  - exists pattern. split; [exact Hpat|exact Hpix].
Defined.

(** With a negative width or height np.zeros raises in the try block of
    create_test_pattern and again in its handler; line 58 of run is outside
    any try, so the exception leaves the loop of the sender thread. *)
Theorem negative_resolution_ends_sender_loop (cam_accepts : Frame -> bool)
    (s : t) (cam : Camera) :
  running s = true ->
  virtual_cam s = Some cam ->
  send_test_pattern s = true ->
  fst (test_pattern_resolution s) < 0 \/ snd (test_pattern_resolution s) < 0 ->
  create_test_pattern (fst (test_pattern_resolution s))
                      (snd (test_pattern_resolution s)) = inl ValueError /\
  run_iteration cam_accepts s = Crash ValueError s /\
  forall n, run_steps cam_accepts n s = (s, []).
Proof.
  intros Hrun Hcam Hmode Hneg.
  assert (Hpat : create_test_pattern (fst (test_pattern_resolution s))
                                     (snd (test_pattern_resolution s))
                 = inl ValueError).
  { unfold create_test_pattern, create_test_pattern_try, np_zeros.
    assert ((snd (test_pattern_resolution s) <? 0)
            || (fst (test_pattern_resolution s) <? 0) = true) as ->; [|done].
    apply orb_true_iff. rewrite !Z.ltb_lt. lia. }
  assert (Hit : run_iteration cam_accepts s = Crash ValueError s).
  { unfold run_iteration. by rewrite Hrun, Hcam, Hmode, Hpat. }
  split; [done|]. split; [done|].
  intros [|n]; [done|]. simpl. by rewrite Hit.
Qed.

Lemma negative_resolution_ends_sender_loop_witness :
  let cam := {| cam_width := 4; cam_height := 16;
                cam_fps := {| fps_n := 25; fps_d := 1 |} |} in
  let s := mk (Queue.create 1) true None None true (-4, 16) (Some cam) in
  run_iteration (fun _ => true) s = Crash ValueError s.
Proof.
  intros cam s.
  apply (negative_resolution_ends_sender_loop (fun _ => true) s cam);
    try reflexivity.
  left. simpl. lia.
Defined.

Lemma switch_modes_snoc (calls : list bool) (b : bool) (s : t) :
  switch_modes (calls ++ [b]) s
  = if b then enable_test_pattern (switch_modes calls s)
    else disable_test_pattern (switch_modes calls s).
Proof. unfold switch_modes. by rewrite foldl_app. Qed.

Lemma switch_modes_rest (calls : list bool) (s : t) :
  queue (switch_modes calls s) = queue s /\
  running (switch_modes calls s) = running s /\
  frame_rate_n (switch_modes calls s) = frame_rate_n s /\
  frame_rate_d (switch_modes calls s) = frame_rate_d s /\
  test_pattern_resolution (switch_modes calls s) = test_pattern_resolution s /\
  virtual_cam (switch_modes calls s) = virtual_cam s.
Proof.
  revert s. induction calls as [|b calls IH]; intros s; [done|].
  simpl. destruct (IH (if b then enable_test_pattern s
                       else disable_test_pattern s))
    as (H1 & H2 & H3 & H4 & H5 & H6).
  unfold switch_modes in *. rewrite H1, H2, H3, H4, H5, H6.
  unfold enable_test_pattern, disable_test_pattern.
  by destruct b, (send_test_pattern s).
Qed.

(** enable_test_pattern and disable_test_pattern write the mode flag and
    nothing else: after any sequence of the two calls the mode is the one
    of the last call, and the slot, the device, the resolution, the rate
    and the running flag are as before. *)
Theorem mode_follows_last_switch (calls : list bool) (b : bool) (s : t) :
  send_test_pattern (switch_modes (calls ++ [b]) s) = b /\
  queue (switch_modes (calls ++ [b]) s) = queue s /\
  running (switch_modes (calls ++ [b]) s) = running s /\
  test_pattern_resolution (switch_modes (calls ++ [b]) s)
  = test_pattern_resolution s /\
  virtual_cam (switch_modes (calls ++ [b]) s) = virtual_cam s.
Proof.
  destruct (switch_modes_rest (calls ++ [b]) s) as (H1 & H2 & _ & _ & H5 & H6).
  split; [|done].
  rewrite switch_modes_snoc.
  unfold enable_test_pattern, disable_test_pattern.
  by destruct b, (send_test_pattern (switch_modes calls s)) eqn:Hmode.
Qed.

(** After stop, the next pass of the sender loop leaves the loop: it closes
    the device when one is open, and sends and signals nothing, also when a
    live frame is still in the slot. *)
Theorem sender_stop_exits_loop (cam_accepts : Frame -> bool) (s : t)
    (n : nat) :
  run_steps cam_accepts (S n) (stop s)
  = (stop s, match virtual_cam s with Some _ => [cam_close] | None => [] end)
  /\
  queue (stop s) = queue s /\
  frames_signalled (snd (run_steps cam_accepts (S n) (stop s))) = [] /\
  frames_sent (snd (run_steps cam_accepts (S n) (stop s))) = [].
Proof.
  assert (Hsteps : run_steps cam_accepts (S n) (stop s)
                   = (stop s, match virtual_cam s with
                              | Some _ => [cam_close]
                              | None => []
                              end)) by done.
  rewrite Hsteps. repeat split; by destruct (virtual_cam s).
Qed.

End SenderLoop.

(** ** Invariants of the video thread *)

Section RunInvariant.

Import VideoThread.

Variable env : Env.
Variable P : t -> Prop.

Hypothesis P_connect : forall w, P w -> P (connect_stream env w).
Hypothesis P_lost : forall w, P w -> P (connect_lost w).
Hypothesis P_finally : forall w, P w -> P (finally w).
Hypothesis P_elapse : forall d w, P w -> P (elapse env d w).
Hypothesis P_announce :
  forall w, P w -> P (emit (reconnection_attempt_signal (current_wait w)) w).
Hypothesis P_double :
  forall w, P w ->
            P (set_current_wait (Z.min (current_wait w * 2) (max_wait w)) w).
Hypothesis P_reset :
  forall w, P w -> P (set_current_wait (initial_wait w) w).
Hypothesis P_forward :
  forall img w,
    P w ->
    P (emit (virtual_cam_frame_ready_signal img)
         (set_sender
            (VirtualCamSendThread.send_frame img (virtual_cam_send_thread w))
            (emit (call_send_frame img) (emit (frame_ready_signal img) w)))).
Hypothesis P_locked :
  forall w, P w -> P (fst (handle_disconnection_locked w)).

Lemma attempt_reconnection_keeps (fuel : nat) (w : t) :
  P w -> P (world_of (attempt_reconnection fuel env w)).
Proof.
  revert w. induction fuel as [|fuel IH]; intros w Hw; cbn [attempt_reconnection].
  - by destruct (_ && _).
  - destruct (_ && _); [|done].
    set (w1 := elapse env _ _).
    assert (Hw1 : P w1) by (apply P_elapse, P_announce, Hw).
    destruct (negb (running w1)); [done|].
    destruct (connection_established (connect_stream env w1)).
    + by apply P_connect.
    + by apply IH, P_double, P_connect.
Qed.

Lemma decode_loop_keeps (frames : list (option Frame)) (w : t) :
  P w -> P (decode_loop frames w).
Proof.
  revert w. induction frames as [|[img|] frames IH]; intros w Hw;
    cbn [decode_loop]; [done| |].
  - destruct (negb (running w)); [done|]. apply IH.
    change (virtual_cam_send_thread
              (emit (call_send_frame img) (emit (frame_ready_signal img) w)))
      with (virtual_cam_send_thread w).
    by apply P_forward.
  - destruct (negb (running w)); [done|]. by apply IH.
Qed.

Lemma demux_loop_keeps (packets : list Packet) (generator_end : option Exn)
    (w : t) :
  P w -> P (state_of (demux_loop env packets generator_end w)).
Proof.
  revert w. induction packets as [|packet packets IH]; intros w Hw;
    cbn [demux_loop].
  - by destruct generator_end.
  - set (w1 := elapse env _ _).
    assert (Hw1 : P w1) by (by apply P_elapse).
    destruct (negb (running w1)); [done|].
    destruct (dts packet); [|by apply IH].
    destruct (decode packet) as [e|frames]; [done|].
    by apply IH, decode_loop_keeps.
Qed.

Lemma read_stream_keeps (w : t) : P w -> P (state_of (read_stream env w)).
Proof.
  intros Hw. unfold read_stream.
  change (container (set_current_wait (initial_wait w) w))
    with (container w).
  destruct (container w) as [c|]; [|by apply P_reset].
  by apply demux_loop_keeps, P_reset.
Qed.

Lemma handle_disconnection_keeps (fuel : nat) (w : t) :
  P w -> P (world_of (handle_disconnection fuel env w)).
Proof.
  intros Hw. unfold handle_disconnection.
  pose proof (P_locked w Hw) as Hlocked.
  destruct (handle_disconnection_locked w) as [w1 returned].
  simpl in Hlocked. destruct returned; [done|].
  destruct (should_reconnect w1); [|done].
  by apply attempt_reconnection_keeps.
Qed.

Lemma run_keeps (fuel : nat) (w : t) :
  P w -> P (world_of (run fuel env w)).
Proof.
  revert w. induction fuel as [|fuel IH]; intros w Hw; cbn [run].
  - by destruct (running w).
  - destruct (running w); [|done].
    pose proof (P_connect w Hw) as Hc.
    destruct (negb (connection_established (connect_stream env w))).
    + destruct (negb (is_reconnecting (connect_stream env w))).
      * pose proof (attempt_reconnection_keeps fuel _ (P_lost _ Hc)) as Ha.
        destruct (attempt_reconnection fuel env _) as [w'|w']; simpl in Ha.
        -- by apply IH, P_finally.
        -- done.
      * by apply IH, P_finally.
    + pose proof (read_stream_keeps _ Hc) as Hr.
      destruct (read_stream env _) as [w'|e w']; simpl in Hr.
      * by apply IH, P_finally.
      * pose proof (handle_disconnection_keeps fuel _ Hr) as Hh.
        destruct (handle_disconnection fuel env w') as [w''|w''];
          simpl in Hh.
        -- by apply IH, P_finally.
        -- done.
Qed.

End RunInvariant.

Section AnySource.

Import VideoThread.

Lemma connect_stream_fields (env : Env) (w : t) :
  running (connect_stream env w) = running w /\
  should_reconnect (connect_stream env w) = should_reconnect w /\
  initial_wait (connect_stream env w) = initial_wait w /\
  max_wait (connect_stream env w) = max_wait w /\
  current_wait (connect_stream env w) = current_wait w /\
  clock (connect_stream env w) = clock w /\
  opens (connect_stream env w) = S (opens w).
Proof.
  unfold connect_stream. simpl.
  destruct (av_open env (opens w)) as [e|c]; simpl; [done|].
  destruct (streams_video c) as [|stream streams]; simpl; [done|].
  by destruct (VirtualCamSendThread.set_frame_rate _ _ _ _).
Qed.

Lemma connect_stream_no_loss_event (env : Env) (w : t) :
  exists evs,
    trace (connect_stream env w) = trace w ++ evs /\
    forallb (fun e => negb (is_loss_event e)) evs = true.
Proof.
  unfold connect_stream. simpl.
  destruct (av_open env (opens w)) as [e|c]; simpl;
    [exists []; by rewrite app_nil_r|].
  destruct (streams_video c) as [|stream streams]; simpl;
    [exists []; by rewrite app_nil_r|].
  destruct (VirtualCamSendThread.set_frame_rate _ _ _ _); simpl.
  - eexists. by rewrite <- app_assoc.
  - by eexists.
Qed.

Lemma no_loss_in_bounds (evs : list Event) :
  forallb (fun e => negb (is_loss_event e)) evs = true ->
  Forall wait_in_bounds evs.
Proof.
  induction evs as [|e evs IH]; simpl; [done|].
  intros [He Hevs]%andb_true_iff. constructor; [|by apply IH].
  by destruct e.
Qed.

Lemma sender_serving_send_frame (cam : Camera) (res : Z * Z) (img : Frame)
    (s : VirtualCamSendThread.t) :
  sender_serving cam res s ->
  sender_serving cam res (VirtualCamSendThread.send_frame img s).
Proof.
  intros (Hcam & Hrun & Hres & Hslot).
  destruct (VirtualCamSendThread.send_test_pattern s) eqn:Hmode.
  - unfold VirtualCamSendThread.send_frame. by rewrite Hmode.
  - rewrite send_frame_live by done.
    repeat split; simpl; (done || lia).
Qed.

Lemma sender_serving_connect_stream (env : Env) (cam : Camera)
    (res : Z * Z) (w : t) :
  sender_serving cam res (virtual_cam_send_thread w) ->
  sender_serving cam res (virtual_cam_send_thread (connect_stream env w)).
Proof.
  intros (Hcam & Hrun & Hres & Hmax & Hlen).
  unfold connect_stream. simpl.
  destruct (av_open env (opens w)) as [e|c]; simpl; [done|].
  destruct (streams_video c) as [|stream streams]; simpl; [done|].
  unfold VirtualCamSendThread.set_frame_rate. simpl. rewrite Hcam.
  destruct (snd (resolve_rate stream) =? 0); simpl; [done|].
  unfold VirtualCamSendThread.disable_test_pattern. simpl.
  by destruct (VirtualCamSendThread.send_test_pattern _).
Qed.

(** Whatever the source does and whenever stop comes, the backoff stays in
    its bounds: at every point the current wait is between 1 and 32 seconds,
    and so is the wait of every reconnection_attempt signal emitted. *)
Theorem backoff_stays_in_bounds (env : Env) (fuel : nat) (w : t) :
  backoff_in_bounds w ->
  backoff_in_bounds (world_of (run fuel env w)).
Proof.
  apply run_keeps; clear w.
  - intros w (Hiw & Hmw & Hcw & Htr). unfold backoff_in_bounds.
    destruct (connect_stream_fields env w) as (_ & _ & -> & -> & -> & _).
    destruct (connect_stream_no_loss_event env w) as (evs & -> & Hevs).
    do 3 (split; [done|]).
    apply Forall_app. split; [done|by apply no_loss_in_bounds].
  - intros w (Hiw & Hmw & Hcw & Htr). do 3 (split; [done|]).
    simpl. apply Forall_app. split; [done|]. by repeat constructor.
  - by intros w (Hiw & Hmw & Hcw & Htr).
  - intros d w (Hiw & Hmw & Hcw & Htr). unfold elapse.
    destruct (stop_at env) as [s|]; [|done].
    by destruct (s <=? _).
  - intros w (Hiw & Hmw & Hcw & Htr). do 3 (split; [done|]).
    simpl. apply Forall_app. split; [done|].
    constructor; [exact Hcw|constructor].
  - intros w (Hiw & Hmw & Hcw & Htr).
    split; [done|]. split; [done|]. split; [simpl; lia|done].
  - intros w (Hiw & Hmw & Hcw & Htr).
    split; [done|]. split; [done|]. split; [simpl; lia|done].
  - intros img w (Hiw & Hmw & Hcw & Htr). do 3 (split; [done|]).
    simpl. rewrite <- !app_assoc. apply Forall_app. split; [done|].
    by repeat constructor.
  - intros w (Hiw & Hmw & Hcw & Htr). unfold handle_disconnection_locked.
    destruct (connection_established w), (is_reconnecting w) eqn:Hing;
      simpl; rewrite ?Hing; simpl; do 3 (split; [done|]); simpl;
      try done; apply Forall_app; split; try done; by repeat constructor.
Qed.

Lemma backoff_stays_in_bounds_witness :
  backoff_in_bounds (world_of (run 5 opens_once start)).
Proof.
  apply (backoff_stays_in_bounds opens_once 5 start).
  split; [reflexivity|]. split; [reflexivity|]. split; [simpl; lia|].
  constructor.
Defined.

(** Once the device is open, nothing the video thread does changes it or
    stops the sender thread: through connections that advertise other
    rates, lost connections and reconnections, the sender object keeps the
    device with its width, height and fps, stays running, and keeps its
    resolution and a slot of at most one frame. *)
Theorem sender_serving_through_run (env : Env) (fuel : nat) (cam : Camera)
    (res : Z * Z) (w : t) :
  sender_serving cam res (virtual_cam_send_thread w) ->
  sender_serving cam res (virtual_cam_send_thread (world_of (run fuel env w))).
Proof.
  apply (run_keeps env
           (fun w => sender_serving cam res (virtual_cam_send_thread w)));
    clear w.
  - intros w. apply sender_serving_connect_stream.
  - intros w (Hcam & Hrun & Hres & Hslot). simpl.
    unfold VirtualCamSendThread.enable_test_pattern.
    by destruct (negb _).
  - by intros w.
  - intros d w Hw. unfold elapse.
    destruct (stop_at env) as [s|]; [|done]. by destruct (s <=? _).
  - by intros w.
  - by intros w.
  - by intros w.
  - intros img w Hw. simpl. by apply sender_serving_send_frame.
  - intros w (Hcam & Hrun & Hres & Hslot). unfold handle_disconnection_locked.
    destruct (connection_established w), (is_reconnecting w) eqn:Hing;
      simpl; rewrite ?Hing; simpl; try done;
      unfold VirtualCamSendThread.enable_test_pattern;
      by destruct (negb _).
Qed.

Lemma sender_serving_through_run_witness :
  let cam := {| cam_width := 1920; cam_height := 1080;
                cam_fps := {| fps_n := 25; fps_d := 1 |} |} in
  let rate := {| numerator := 30; denominator := 1 |} in
  let c := {| streams_video := [ {| average_rate := Some rate |} ];
              demux := []; demux_end := Some AVError |} in
  let env := {| av_open := fun _ => opened c; camera_opens := true;
                stop_at := None |} in
  let w := init (VirtualCamSendThread.set_virtual_cam (Some cam)
                   VirtualCamSendThread.init) in
  VirtualCamSendThread.virtual_cam
    (virtual_cam_send_thread (world_of (run 4 env w))) = Some cam.
Proof.
  intros cam rate c env w.
  apply (sender_serving_through_run env 4 cam (1920, 1080) w).
  repeat split; simpl; lia.
Defined.

Lemma running_kept_without_stop (env : Env) :
  stop_at env = None ->
  (forall fuel w, running w = true ->
                  running (world_of (attempt_reconnection fuel env w)) = true)
  /\
  (forall w, running w = true ->
             running (state_of (read_stream env w)) = true) /\
  (forall fuel w, running w = true ->
                  running (world_of (handle_disconnection fuel env w)) = true).
Proof.
  intros Hstop.
  assert (Hconnect : forall w, running w = true ->
                               running (connect_stream env w) = true).
  { intros w Hw. by destruct (connect_stream_fields env w) as (-> & _). }
  assert (Helapse : forall d w, running w = true ->
                                running (elapse env d w) = true).
  { intros d w Hw. unfold elapse. by rewrite Hstop. }
  assert (Hlocked : forall w, running w = true ->
                      running (fst (handle_disconnection_locked w)) = true).
  { intros w Hw. unfold handle_disconnection_locked.
    by destruct (connection_established w), (is_reconnecting w) eqn:Hing;
      simpl; rewrite ?Hing. }
  split; [|split].
  - intros fuel w.
    by apply (attempt_reconnection_keeps env (fun w => running w = true)).
  - intros w.
    by apply (read_stream_keeps env (fun w => running w = true)).
  - intros fuel w.
    by apply (handle_disconnection_keeps env (fun w => running w = true)).
Qed.

(** The thread has no way to end by itself: as long as nobody calls stop,
    run is still turning after any number of passes of its loops, whatever
    the source does (failing opens, streams that end, exceptions). *)
Theorem run_never_ends_without_stop (env : Env) (fuel : nat) (w : t) :
  stop_at env = None ->
  running w = true ->
  exists w', run fuel env w = Pending w' /\ running w' = true.
Proof.
  intros Hstop.
  destruct (running_kept_without_stop env Hstop) as (Hatt & Hread & Hhd).
  revert w. induction fuel as [|fuel IH]; intros w Hrun; cbn [run];
    rewrite Hrun; [by exists w|].
  assert (Hc : running (connect_stream env w) = true).
  { by destruct (connect_stream_fields env w) as (-> & _). }
  destruct (negb (connection_established (connect_stream env w))).
  - destruct (negb (is_reconnecting (connect_stream env w))).
    + pose proof (Hatt fuel (connect_lost (connect_stream env w)) Hc) as Ha.
      destruct (attempt_reconnection fuel env _) as [w'|w']; simpl in Ha.
      * by apply IH.
      * by exists w'.
    + by apply IH.
  - pose proof (Hread _ Hc) as Hr.
    destruct (read_stream env _) as [w'|e w']; simpl in Hr.
    + by apply IH.
    + pose proof (Hhd fuel w' Hr) as Hh.
      destruct (handle_disconnection fuel env w') as [w''|w''];
        simpl in Hh.
      * by apply IH.
      * by exists w''.
Qed.

Lemma run_never_ends_without_stop_witness :
  exists w', run 12 opens_once start = Pending w' /\ running w' = true.
Proof.
  apply (run_never_ends_without_stop opens_once 12 start); reflexivity.
Defined.

(** run ends only when running is false, and a thread that was running ends
    with its container closed: every way out of the loop passes the finally
    clause of lines 276-280. *)
Theorem run_ends_stopped_and_closed (env : Env) (fuel : nat) (w w' : t) :
  run fuel env w = Finished w' ->
  running w' = false /\ (running w = true -> container w' = None).
Proof.
  assert (Hfin : forall fuel x w',
             (forall w, run fuel env w = Finished w' ->
                        running w' = false /\
                        (running w = true -> container w' = None)) ->
             run fuel env (finally x) = Finished w' ->
             running w' = false /\ container w' = None).
  { intros fuel0 x w0 IH Hx. destruct (IH _ Hx) as [Hrun Hcont].
    split; [done|].
    destruct (running (finally x)) eqn:Hfx; [by apply Hcont|].
    destruct fuel0; cbn [run] in Hx; rewrite Hfx in Hx;
      by injection Hx as <-. }
  revert w w'. induction fuel as [|fuel IH]; intros w w'; cbn [run].
  - destruct (running w) eqn:Hrun; [done|].
    intros [= <-]. by rewrite Hrun.
  - destruct (running w) eqn:Hrun;
      [|intros [= <-]; by rewrite Hrun].
    assert (Hgoal : forall x, run fuel env (finally x) = Finished w' ->
                              running w' = false /\
                              (true = true -> container w' = None)).
    { intros x Hx. destruct (Hfin fuel x w' (fun w => IH w w') Hx). done. }
    destruct (negb (connection_established (connect_stream env w))).
    + destruct (negb (is_reconnecting (connect_stream env w))).
      * destruct (attempt_reconnection fuel env _) as [w1|w1]; [|done].
        apply Hgoal.
      * apply Hgoal.
    + destruct (read_stream env _) as [w1|e w1]; [apply Hgoal|].
      destruct (handle_disconnection fuel env w1) as [w2|w2]; [|done].
      apply Hgoal.
Qed.

Lemma run_ends_stopped_and_closed_witness :
  exists w',
    run 20 stopped_at_32 start = Finished w' /\
    running w' = false /\ container w' = None.
Proof.
  exists (world_of (run 20 stopped_at_32 start)).
  assert (Hrun : run 20 stopped_at_32 start
                 = Finished (world_of (run 20 stopped_at_32 start)))
    by (vm_compute; reflexivity).
  split; [exact Hrun|].
  destruct (run_ends_stopped_and_closed stopped_at_32 20 start _ Hrun)
    as [Hstopped Hclosed].
  split; [exact Hstopped|]. apply Hclosed. reflexivity.
Defined.

End AnySource.

(** ** Connecting, losing the connection and stopping *)

Section Connection.

Import VideoThread.

Lemma current_wait_after_failures_witness :
  current_wait start = 1 /\
  exists w,
    run 8 never_opens start = Pending w /\
    current_wait w = Z.min (2 ^ Z.of_nat 7) 32.
Proof.
  apply (current_wait_after_failures never_opens 7).
  - intros k. by exists AVError.
  - reflexivity.
Defined.

Lemma forward_events_no_loss (frames : list Frame) :
  forallb (fun e => negb (is_loss_event e)) (flat_map forward_events frames)
  = true.
Proof. induction frames as [|f frames IH]; simpl; [done|exact IH]. Qed.

(** A stream that ends without an exception is not taken as a lost
    connection: run closes the container and opens the source again at once,
    without connection_lost, without a reconnection_attempt and without a
    wait.  On a source that opens every time and whose streams end cleanly,
    each pass of the loop of run makes one av.open. *)
Theorem clean_stream_end_reopens_at_once (env : Env) (fuel : nat) (w : t) :
  reopens_cleanly env ->
  running w = true ->
  exists w' evs,
    run fuel env w = Pending w' /\
    opens w' = (opens w + fuel)%nat /\
    trace w' = trace w ++ evs /\
    forallb (fun e => negb (is_loss_event e)) evs = true.
Proof.
  intros [Hstop Hsrc]. revert w.
  induction fuel as [|fuel IH]; intros w Hrun; cbn [run]; rewrite Hrun.
  - exists w, []. rewrite app_nil_r, Nat.add_0_r. by repeat split.
  - destruct (Hsrc (opens w)) as (c & stream & streams & Hopen & Hstr & Herr).
    destruct (connect_stream_opened env w c stream streams Hopen Hstr)
      as (Hest & Hcont & _ & Htr & _ & _ & _ & Hrun' & _).
    destruct (connect_stream_fields env w) as (_ & _ & _ & _ & _ & _ & Hops).
    rewrite Hest. simpl negb. cbv iota.
    rewrite Hrun in Hrun'.
    unfold read_stream. simpl container. rewrite Hcont.
    destruct (demux_loop_forwards env (demux c) (demux_end c)
                (set_current_wait (initial_wait (connect_stream env w))
                                  (connect_stream env w)) Hstop Hrun')
      as (Hraised & Htr' & _ & Hflags).
    rewrite Herr in Hraised.
    destruct (demux_loop env (demux c) (demux_end c) _) as [w1|e w1];
      [|discriminate Hraised].
    simpl in Htr', Hflags.
    destruct Hflags as (Hf1 & _ & _ & _ & _ & _ & _ & _ & Hf9).
    simpl in Hf1, Hf9.
    destruct (IH (finally w1)) as (w' & evs & Hw' & Hops' & Hevs & Hno);
      [by rewrite <- Hf1 in Hrun'|].
    exists w', ([call_set_frame_rate (fst (resolve_rate stream))
                                     (snd (resolve_rate stream));
                 connection_established_signal]
                ++ flat_map forward_events (valid_frames (demux c)) ++ evs).
    split; [exact Hw'|]. split; [|split].
    + rewrite Hops'. simpl. rewrite Hf9, Hops. lia.
    + rewrite Hevs. simpl trace. rewrite Htr', Htr.
      by rewrite <- !app_assoc.
    + rewrite !forallb_app, forward_events_no_loss, Hno. done.
Qed.

Lemma clean_stream_end_reopens_at_once_witness :
  let img : Frame := [[(1, 2, 3)]] in
  let c := {| streams_video := [ {| average_rate := None |} ];
              demux := [ {| arrives_after := 0; dts := Some 0;
                            decode := inr [Some img] |} ];
              demux_end := None |} in
  let env := {| av_open := fun _ => opened c; camera_opens := true;
                stop_at := None |} in
  exists w' evs,
    run 3 env start = Pending w' /\
    opens w' = (opens start + 3)%nat /\
    trace w' = trace start ++ evs /\
    forallb (fun e => negb (is_loss_event e)) evs = true.
Proof.
  intros img c env.
  apply (clean_stream_end_reopens_at_once env 3 start); [|reflexivity].
  split; [reflexivity|].
  intros k. by exists c, {| average_rate := None |}, [].
Defined.

(** An advertised average rate of zero counts as no rate: the test of line
    304 is false for it, and the default 25/1 is reported to the sender. *)
Theorem zero_rate_gives_default (env : Env) (w : t) (c : Container)
    (stream : Stream) (streams : list Stream) (r : Fraction) :
  av_open env (opens w) = opened c ->
  streams_video c = stream :: streams ->
  average_rate stream = Some r ->
  numerator r = 0 ->
  trace (connect_stream env w)
  = trace w ++ [call_set_frame_rate 25 1; connection_established_signal] /\
  VirtualCamSendThread.frame_rate_n (virtual_cam_send_thread (connect_stream env w))
  = Some 25 /\
  VirtualCamSendThread.frame_rate_d (virtual_cam_send_thread (connect_stream env w))
  = Some 1.
Proof.
  intros Hopen Hstr Hrate Hzero.
  destruct (connect_stream_opened env w c stream streams Hopen Hstr)
    as (_ & _ & _ & Htr & Hn & Hd & _).
  assert (Hres : resolve_rate stream = (25, 1)).
  { unfold resolve_rate. by rewrite Hrate, Hzero. }
  rewrite Hres in Htr, Hn, Hd. done.
Qed.

Lemma zero_rate_gives_default_witness :
  let c := {| streams_video :=
                [ {| average_rate := Some {| numerator := 0;
                                             denominator := 1 |} |} ];
              demux := []; demux_end := None |} in
  let env := {| av_open := fun _ => opened c; camera_opens := true;
                stop_at := None |} in
  trace (connect_stream env start)
  = [call_set_frame_rate 25 1; connection_established_signal].
Proof.
  intros c env.
  apply (zero_rate_gives_default env start c
           {| average_rate := Some {| numerator := 0; denominator := 1 |} |}
           [] {| numerator := 0; denominator := 1 |});
    reflexivity.
Defined.

(** handle_disconnection emits connection_lost only for a connection that
    was established, and marks the thread as reconnecting; a second call
    that finds the thread in this state returns at line 344: it emits
    nothing, changes nothing and starts no second reconnection loop. *)
Theorem handle_disconnection_once (w : t) :
  let w1 := fst (handle_disconnection_locked w) in
  trace w1
  = trace w ++ (if connection_established w
                then [connection_lost_signal] else []) /\
  connection_established w1 = false /\
  is_reconnecting w1 = true /\
  handle_disconnection_locked w1 = (w1, true) /\
  forall (fuel : nat) (env : Env), handle_disconnection fuel env w1 = Finished w1.
Proof.
  destruct w as [snd run est cont re ing iw mw cw clk ops tr].
  unfold handle_disconnection, handle_disconnection_locked.
  destruct est, ing; simpl; rewrite ?app_nil_r; by repeat split.
Qed.

(** A stop that comes while the read loop waits for a packet is seen when
    the packet arrives, at the test of line 247: this packet and all later
    ones are not forwarded, and the thread ends through the finally clause
    without connection_lost and without a reconnection attempt. *)
Theorem stop_while_reading (env : Env) (s : Z) (packet : Packet)
    (packets : list Packet) (generator_end : option Exn) (w : t) :
  stop_at env = Some s ->
  s <= clock w + arrives_after packet ->
  demux_loop env (packet :: packets) generator_end w
  = Ok (set_running false (set_clock (clock w + arrives_after packet) w)) /\
  forall fuel,
    run fuel env
      (finally (set_running false
                  (set_clock (clock w + arrives_after packet) w)))
    = Finished (finally (set_running false
                           (set_clock (clock w + arrives_after packet) w))).
Proof.
  intros Hstop Hs. split.
  - cbn [demux_loop]. unfold elapse. rewrite Hstop.
    by rewrite (proj2 (Z.leb_le _ _) Hs).
  - intros fuel. by apply run_not_running.
Qed.

Lemma stop_while_reading_witness :
  let img : Frame := [[(1, 2, 3)]] in
  let p := {| arrives_after := 5; dts := Some 0; decode := inr [Some img] |} in
  let env := {| av_open := fun _ => open_raises AVError;
                camera_opens := true; stop_at := Some 3 |} in
  demux_loop env [p; p] None start
  = Ok (set_running false (set_clock 5 start)).
Proof.
  intros img p env.
  apply (stop_while_reading env 3 p [p] None start); [reflexivity|].
  simpl. lia.
Defined.

(** When av.open raises, or when the opened container has no video stream
    (the IndexError of line 303), connect_stream ends in its handlers: the
    connection is not established, no container is kept, no signal is
    emitted, and the sender object, the mode and the waits are untouched. *)
Theorem connect_stream_failure (env : Env) (w : t) :
  (exists e, av_open env (opens w) = open_raises e) \/
  (exists c, av_open env (opens w) = opened c /\ streams_video c = []) ->
  connection_established (connect_stream env w) = false /\
  container (connect_stream env w) = None /\
  trace (connect_stream env w) = trace w /\
  virtual_cam_send_thread (connect_stream env w) = virtual_cam_send_thread w /\
  is_reconnecting (connect_stream env w) = is_reconnecting w /\
  current_wait (connect_stream env w) = current_wait w.
Proof.
  intros [[e He]|(c & Hc & Hstr)]; unfold connect_stream; simpl.
  - by rewrite He.
  - rewrite Hc. simpl. by rewrite Hstr.
Qed.

Lemma connect_stream_failure_witness :
  let c := {| streams_video := []; demux := []; demux_end := None |} in
  let env := {| av_open := fun _ => opened c; camera_opens := true;
                stop_at := None |} in
  connection_established (connect_stream env start) = false /\
  container (connect_stream env start) = None /\
  trace (connect_stream env start) = [].
Proof.
  intros c env.
  destruct (connect_stream_failure env start) as (Hest & Hcont & Htr & _).
  - right. by exists c.
  - split; [exact Hest|]. split; [exact Hcont|exact Htr].
Defined.

(** When the virtual camera cannot be opened, set_frame_rate stops the
    sender thread (line 146) and tells nobody: connect_stream still emits
    connection_established and switches to Live mode, while the sender loop
    leaves at its next pass without sending or signalling anything. *)
Theorem camera_failure_is_silent (env : Env) (w : t) (c : Container)
    (stream : Stream) (streams : list Stream) :
  camera_opens env = false ->
  VirtualCamSendThread.virtual_cam (virtual_cam_send_thread w) = None ->
  av_open env (opens w) = opened c ->
  streams_video c = stream :: streams ->
  connection_established (connect_stream env w) = true /\
  trace (connect_stream env w)
  = trace w ++ [call_set_frame_rate (fst (resolve_rate stream))
                                    (snd (resolve_rate stream));
                connection_established_signal] /\
  VirtualCamSendThread.send_test_pattern
    (virtual_cam_send_thread (connect_stream env w)) = false /\
  VirtualCamSendThread.running
    (virtual_cam_send_thread (connect_stream env w)) = false /\
  VirtualCamSendThread.virtual_cam
    (virtual_cam_send_thread (connect_stream env w)) = None /\
  forall (cam_accepts : Frame -> bool) (n : nat),
    VirtualCamSendThread.run_steps cam_accepts (S n)
      (virtual_cam_send_thread (connect_stream env w))
    = (virtual_cam_send_thread (connect_stream env w), []).
Proof.
  intros Hcamera Hcam Hopen Hstr.
  destruct (connect_stream_opened env w c stream streams Hopen Hstr)
    as (Hest & _ & _ & Htr & _ & _ & Hmode & _).
  assert (Hsender :
    VirtualCamSendThread.running
      (virtual_cam_send_thread (connect_stream env w)) = false /\
    VirtualCamSendThread.virtual_cam
      (virtual_cam_send_thread (connect_stream env w)) = None).
  { unfold connect_stream. simpl. rewrite Hopen. simpl. rewrite Hstr. simpl.
    unfold VirtualCamSendThread.set_frame_rate.
    rewrite (proj2 (Z.eqb_neq _ 0) (resolve_rate_denominator stream)).
    unfold VirtualCamSendThread.disable_test_pattern. rewrite Hcamera.
    destruct (virtual_cam_send_thread w) as [q r fn fd tp res cam].
    simpl in Hcam. subst cam. simpl. by destruct tp. }
  destruct Hsender as [Hrun Hnone].
  do 5 (split; [done|]).
  intros cam_accepts n. simpl.
  unfold VirtualCamSendThread.run_iteration. by rewrite Hrun, Hnone.
Qed.

Lemma camera_failure_is_silent_witness :
  let c := {| streams_video := [ {| average_rate := None |} ];
              demux := []; demux_end := None |} in
  let env := {| av_open := fun _ => opened c; camera_opens := false;
                stop_at := None |} in
  connection_established (connect_stream env start) = true /\
  VirtualCamSendThread.running
    (virtual_cam_send_thread (connect_stream env start)) = false.
Proof.
  intros c env.
  destruct (camera_failure_is_silent env start c {| average_rate := None |} []
              eq_refl eq_refl eq_refl eq_refl)
    as (Hest & _ & _ & Hrun & _).
  split; [exact Hest|exact Hrun].
Defined.

End Connection.

(** ** The mode of the sender follows the connection *)

Section ModeFollowsConnection.

Import VideoThread.

Abbreviation mode w :=
  (VirtualCamSendThread.send_test_pattern (virtual_cam_send_thread w)).


Lemma send_frame_mode (img : Frame) (s : VirtualCamSendThread.t) :
  VirtualCamSendThread.send_test_pattern
    (VirtualCamSendThread.send_frame img s)
  = VirtualCamSendThread.send_test_pattern s.
Proof.
  unfold VirtualCamSendThread.send_frame.
  destruct (VirtualCamSendThread.send_test_pattern s) eqn:Hmode; [done|].
  destruct (Queue.put_nowait _ _); [done|].
  by destruct (Queue.put_nowait _ _).
Qed.






End ModeFollowsConnection.

(** ** The window *)

Section Window.

Import Stdlib.Strings.String.
Import MainWindow WindowSpec.

Lemma contains_In (d : list string) (x : string) :
  contains d x = true <-> In x d.
Proof.
  unfold contains. rewrite existsb_exists. split.
  - intros (y & Hy & Heq). apply String.eqb_eq in Heq. by subst y.
  - intros Hx. exists x. split; [done|]. apply String.eqb_refl.
Qed.

Lemma In_take (n : nat) (x : string) (l : list string) :
  In x (take n l) -> In x l.
Proof.
  revert l. induction n as [|n IH]; intros [|y l]; simpl; try done.
  intros [Hy|Hx]; [by left|right; by apply IH].
Qed.

Lemma NoDup_take_list (n : nat) (l : list string) :
  NoDup l -> NoDup (take n l).
Proof.
  revert l. induction n as [|n IH]; intros [|y l] Hl; simpl;
    try constructor.
  - inversion_clear Hl as [|? ? Hy Hl']. intros Hin%list_elem_of_In%In_take.
    apply Hy. by apply list_elem_of_In.
  - inversion_clear Hl as [|? ? Hy Hl']. by apply IH.
Qed.

Lemma remember_url_history (url : string) (w : t) :
  rtsp_history (remember_url url w)
  = if contains (rtsp_history w) url then rtsp_history w
    else take 10 (url :: rtsp_history w).
Proof. unfold remember_url. by destruct (contains _ _). Qed.

Lemma history_ok_remember (url : string) (w : t) :
  url <> EmptyString -> history_ok w -> history_ok (remember_url url w).
Proof.
  intros Hurl (Hlen & Hnd & Hempty & Hitems). unfold remember_url.
  destruct (contains (rtsp_history w) url) eqn:Hin; simpl; [done|].
  assert (Hnotin : ~ In url (rtsp_history w)).
  { intros Hx%contains_In. by rewrite Hx in Hin. }
  unfold history_ok.
  cbn [rtsp_history rtsp_input_items set_rtsp_input set_rtsp_history].
  unfold appendleft.
  split; [|split; [|split]].
  - rewrite length_take. lia.
  - apply NoDup_take_list. constructor; [|done].
    by rewrite list_elem_of_In.
  - intros [Hx|Hx]%In_take; [by apply Hurl|by apply Hempty].
  - done.
Qed.

Lemma history_ok_handle (a : Action) (w : t) :
  history_ok w -> history_ok (handle a w).
Proof.
  intros Hok. destruct a; simpl; try done.
  unfold toggle_stream. destruct (is_streaming w); simpl; [done|].
  unfold connect_to_stream.
  destruct (String.eqb (rtsp_input_text w) EmptyString) eqn:Hurl;
    simpl; [done|].
  apply history_ok_remember.
  - intros Heq. rewrite Heq in Hurl. discriminate Hurl.
  - unfold history_ok. by destruct (video_thread w).
Qed.

(** Through any sequence of edits, clicks and signals the history of URLs
    holds at most ten entries, none of them twice and none of them empty,
    and the combo box lists exactly the history. *)
Theorem history_stays_ok (actions : list Action) (w : t) :
  history_ok w -> history_ok (handle_all actions w).
Proof.
  revert w. induction actions as [|a actions IH]; intros w Hok; [done|].
  simpl. by apply IH, history_ok_handle.
Qed.

Lemma history_stays_ok_witness :
  history_ok
    (handle_all [edit_text "rtsp://a"%string; click_connect; click_connect;
                 edit_text "rtsp://b"%string; click_connect; click_connect;
                 edit_text "rtsp://a"%string; click_connect] init).
Proof.
  apply (history_stays_ok _ init).
  split; [simpl; lia|]. split; [constructor|]. split; [intros []|reflexivity].
Defined.

(** A click on Connect with a URL starts a thread for this URL and keeps
    the URL in the history and as the text of the combo box; a URL that is
    already in the history stays at its place (it is not moved to the
    front), a new one is put in front, the oldest entry dropping out when
    there are ten. *)
Theorem connect_remembers_url (w : t) (url : string) :
  is_streaming w = false ->
  rtsp_input_text w = url ->
  url <> EmptyString ->
  let w' := fst (toggle_stream w) in
  snd (toggle_stream w) = [] /\
  is_streaming w' = true /\
  video_thread w' = Some {| rtsp_url := url; stopped := false |} /\
  In url (rtsp_history w') /\
  rtsp_input_text w' = url /\
  (In url (rtsp_history w) ->
   rtsp_history w' = rtsp_history w /\
   rtsp_input_items w' = rtsp_input_items w) /\
  (~ In url (rtsp_history w) ->
   rtsp_history w' = take 10 (url :: rtsp_history w) /\
   rtsp_input_items w' = rtsp_history w').
Proof.
  intros Hst Htext Hurl. unfold toggle_stream. rewrite Hst.
  unfold connect_to_stream. rewrite Htext.
  rewrite (proj2 (String.eqb_neq url EmptyString) Hurl). simpl.
  unfold remember_url.
  destruct (video_thread w); simpl;
    (destruct (contains (rtsp_history w) url) eqn:Hin; simpl;
     [apply contains_In in Hin; by repeat split|]);
    (assert (Hnotin : ~ In url (rtsp_history w))
       by (intros Hx%contains_In; by rewrite Hx in Hin));
    repeat split; try done; by left.
Qed.

Lemma connect_remembers_url_witness :
  let w := handle_all [edit_text "rtsp://a"%string] init in
  let w' := fst (toggle_stream w) in
  is_streaming w' = true /\
  rtsp_history w' = ["rtsp://a"%string].
Proof.
  intros w w'.
  destruct (connect_remembers_url w "rtsp://a"%string)
    as (_ & Hst & _ & _ & _ & _ & Hnew); [reflexivity|reflexivity| |].
  - intros Heq. discriminate Heq.
  - split; [exact Hst|]. apply Hnew. intros [].
Defined.

(** A click on Connect while the text of the combo box is empty shows the
    warning and changes nothing: no thread, no history entry, the button
    still says Connect. *)
Theorem connect_without_url (w : t) :
  is_streaming w = false ->
  rtsp_input_text w = EmptyString ->
  toggle_stream w
  = (w, [warning "Input Error"%string
                 "Please enter a valid RTSP URL."%string]).
Proof.
  intros Hst Htext. unfold toggle_stream, connect_to_stream.
  by rewrite Hst, Htext.
Qed.

Lemma connect_without_url_witness :
  toggle_stream init
  = (init, [warning "Input Error"%string
                    "Please enter a valid RTSP URL."%string]).
Proof. apply (connect_without_url init); reflexivity. Defined.

Lemma window_consistent_handle (a : Action) (w : t) :
  window_consistent w -> window_consistent (handle a w).
Proof.
  unfold window_consistent. intros Hok.
  destruct a; simpl; try done.
  unfold toggle_stream.
  destruct (video_thread w) as [th|] eqn:Hth.
  - destruct Hok as (-> & _). simpl. done.
  - destruct Hok as (Hst & Hbutton). rewrite Hst.
    unfold connect_to_stream.
    destruct (String.eqb (rtsp_input_text w) EmptyString) eqn:Hurl; simpl.
    + by rewrite Hth.
    + rewrite Hth. unfold remember_url. simpl.
      destruct (contains (rtsp_history w) (rtsp_input_text w)) eqn:Hin;
        simpl.
      * apply contains_In in Hin. by repeat split.
      * repeat split; try done. by left.
Qed.

(** Through any sequence of edits, clicks and signals the window is
    streaming exactly when it holds a thread object and exactly when the
    button says Disconnect, and the URL of the thread it holds is in the
    history. *)
Theorem window_stays_consistent (actions : list Action) (w : t) :
  window_consistent w -> window_consistent (handle_all actions w).
Proof.
  revert w. induction actions as [|a actions IH]; intros w Hok; [done|].
  simpl. by apply IH, window_consistent_handle.
Qed.

Lemma window_stays_consistent_witness :
  window_consistent
    (handle_all [edit_text "rtsp://a"%string; click_connect;
                 connection_established; connection_lost;
                 reconnection_attempt 1] init).
Proof.
  apply (window_stays_consistent _ init). split; reflexivity.
Defined.

End Window.
